(** * topologic-vibe: the session object store and the tool catalogue

    A shallow embedding of [src/session.py], [src/common.py] and
    [src/tools.py].  The geometry kernel (topologicpy) and [uuid.uuid4] are
    external to the repository: the kernel is an interface ([Kernel]) whose
    calls may raise, and the random tokens are an oracle ([UuidSource]). *)

From Stdlib Require Import Ascii DecimalString DecimalNat Lia.
From stdpp Require Import base option list strings.

Set Default Proof Using "Type".
Open Scope string_scope.
Open Scope list_scope.

(** ** Python results: a call either returns a value or raises *)

Inductive exn : Type :=
  | TypeError (msg : string)
  | KernelException (msg : string).

Inductive Res (A : Type) : Type :=
  | Ok (a : A)
  | Raise (e : exn).
Arguments Ok {A} a.
Arguments Raise {A} e.

(** ** The geometry kernel, as the tools see it *)

Class Kernel : Type := {
  (** Python floats handed through to the kernel *)
  num : Type;
  num_zero : num;
  (** topologic objects (vertices, edges, ..., dictionaries) *)
  Obj : Type;
  (** what [Vertex.Coordinates] returns *)
  Coords : Type;
  (** [type(obj).__name__] *)
  type_name : Obj → string;
  (** [format(coords, "")], as the f-string in [get_object_info] does *)
  format_coords : Coords → string;
}.

(** A Python value held by the session or passed to the kernel: [None] or
    a kernel object. *)
Inductive value `{Kernel} : Type :=
  | VNone
  | VObj (o : Obj).

Class KernelOps `{Kernel} : Type := {
  Vertex_ByCoordinates : list num → Res value;
  Vertex_Coordinates : Obj → Res Coords;
  Edge_ByVertices : value → value → Res value;
  Wire_ByVertices : list value → option bool → Res value;
  Face_ByVertices : list value → Res value;
  Face_Rectangle : value → num → num → Res value;
  Face_Circle : value → num → Res value;
  Cell_Cube : value → num → Res value;
  Cell_Prism : num → num → num → Res value;
  Cell_Cylinder : num → num → Res value;
  Dictionary_ByKeysValues : list string → list string → Res value;
  Topology_SetDictionary : value → value → Res value;
}.

(** [uuid.uuid4()] rendered by the f-string: the [n]-th draw of the run. *)
Class UuidSource : Type := {
  uuid4_str : nat → string;
}.

(** ** The insertion-ordered dict of Python *)

Section Dict.
Context {V : Type}.

Definition Dict : Type := list (string * V).

(** [d[k] = v]: an existing key keeps its position, a new key goes last. *)
Fixpoint dict_setitem (k : string) (v : V) (d : Dict) : Dict :=
  match d with
  | [] => [(k, v)]
  | (k', v') :: d' =>
      if String.eqb k k' then (k', v) :: d'
      else (k', v') :: dict_setitem k v d'
  end.

(** [d.get(k)], [None] being Rocq's [None] here *)
Fixpoint dict_lookup (k : string) (d : Dict) : option V :=
  match d with
  | [] => None
  | (k', v') :: d' =>
      if String.eqb k k' then Some v' else dict_lookup k d'
  end.

(** [d.keys()] *)
Definition dict_keys (d : Dict) : list string := map fst d.
End Dict.
Arguments Dict V : clear implicits.

(** ** Session state *)

(** One chat turn, [{"role": role, "content": content}].  No code changes a
    turn once it is made, so a turn is a value here. *)
Record ChatTurn : Type := mkTurn {
  role : string;
  content : string;
}.

(** A reference to a Python list object *)
Abbreviation loc := nat (only parsing).

Section Session.
Context `{KernelOps} `{UuidSource}.

(** [TopologicSession]: [items] is only ever reached through the session,
    so it is held by value; [messages] is a reference to a list object,
    since [get_messages] hands lists out. *)
Record TopologicSession : Type := mkSession {
  items : Dict value;
  messages : loc;
}.

(** The world a tool call runs in: the list objects allocated so far
    (a reference is a position), the active session, and the number of
    [uuid4] draws made. *)
Record World : Type := mkWorld {
  heap : list (list ChatTurn);
  session : TopologicSession;
  draws : nat;
}.

(** State and exceptions: what was mutated before a raise stays mutated. *)
Definition M (A : Type) : Type := World → Res A * World.

Definition ret {A : Type} (a : A) : M A := λ w, (Ok a, w).

Definition bind {A B : Type} (m : M A) (k : A → M B) : M B :=
  λ w, match m w with
       | (Ok a, w') => k a w'
       | (Raise e, w') => (Raise e, w')
       end.

Definition raise {A : Type} (e : exn) : M A := λ w, (Raise e, w).

(** A kernel call: no effect on the world, may raise *)
Definition call {A : Type} (r : Res A) : M A := λ w, (r, w).
End Session.

Declare Scope py_scope.
Delimit Scope py_scope with py.
Notation "x <- m ;; k" := (bind m (λ x, k))
  (at level 100, m at next level, right associativity) : py_scope.
Notation "m ;;; k" := (bind m (λ _, k))
  (at level 100, right associativity) : py_scope.
Open Scope py_scope.

(** ** [src/session.py]: the methods of [TopologicSession] *)

Section Methods.
Context `{KernelOps} `{UuidSource}.

Definition with_heap (h : list (list ChatTurn)) (w : World) : World :=
  mkWorld h (session w) (draws w).

Definition with_session (s : TopologicSession) (w : World) : World :=
  mkWorld (heap w) s (draws w).

(** Reading and rebinding the two attributes of the active session *)
Definition self_items : M (Dict value) := λ w, (Ok (items (session w)), w).
Definition self_messages : M loc := λ w, (Ok (messages (session w)), w).

Definition set_self_items (d : Dict value) : M unit :=
  λ w, (Ok tt, with_session (mkSession d (messages (session w))) w).

Definition set_self_messages (r : loc) : M unit :=
  λ w, (Ok tt, with_session (mkSession (items (session w)) r) w).

(** List objects: a literal or [list(...)] allocates, [append] mutates in
    place (below, [list_append]). *)
Definition new_list (l : list ChatTurn) : M loc :=
  λ w, (Ok (length (heap w)), with_heap (heap w ++ [l]) w).

(** Reading through a reference; a reference the session holds is always
    allocated (see [wf]), so the default is never taken. *)
Definition read_list (r : loc) : M (list ChatTurn) :=
  λ w, (Ok (default [] (heap w !! r)), w).

Definition list_append (r : loc) (e : ChatTurn) : M unit :=
  λ w, (Ok tt, with_heap (alter (λ l : list ChatTurn, l ++ [e]) r (heap w)) w).

(** [TopologicSession()] in a process that has allocated nothing yet *)
Definition TopologicSession_init : World :=
  mkWorld [[]] (mkSession [] 0) 0.

Definition add (name : string) (obj : value) : M string :=
  d <- self_items ;;
  set_self_items (dict_setitem name obj d) ;;;
  ret ("Object '" +:+ name +:+ "' saved.").

Definition get_all_names : M (list string) :=
  d <- self_items ;;
  ret (dict_keys d).

Definition get (name : string) : M value :=
  d <- self_items ;;
  ret (default VNone (dict_lookup name d)).

Definition add_message (role content : string) : M ChatTurn :=
  let entry := mkTurn role content in
  r <- self_messages ;;
  list_append r entry ;;;
  ret entry.

Definition get_messages : M loc :=
  r <- self_messages ;;
  l <- read_list r ;;
  new_list l.

Definition clear_messages : M bool :=
  r <- new_list [] ;;
  set_self_messages r ;;;
  ret true.

(** What the session holds, as a reader sees it: the items and the
    contents of the list [messages] points to. *)
Definition current_messages (w : World) : list ChatTurn :=
  default [] (heap w !! messages (session w)).

Definition view (w : World) : Dict value * list ChatTurn :=
  (items (session w), current_messages w).

(** [messages] always points to an allocated list. *)
Definition wf (w : World) : Prop :=
  messages (session w) < length (heap w).
End Methods.

(** ** [src/common.py] and [src/tools.py] *)

Definition newline : string := String "010"%char "".

Section Tools.
Context `{KernelOps} `{UuidSource}.

(** [uuid.uuid4()] inside an f-string *)
Definition uuid4 : M string :=
  λ w, (Ok (uuid4_str (draws w)), mkWorld (heap w) (session w) (S (draws w))).

Definition assign_name (obj : value) (name : string) : M value :=
  let keys := ["name"] in
  let values := [name] in
  config <- call (Dictionary_ByKeysValues keys values) ;;
  obj <- call (Topology_SetDictionary obj config) ;;
  ret obj.

(** [if name is None: name = f"<kind> {uuid.uuid4()}"] *)
Definition default_name (kind : string) (name : option string) : M string :=
  match name with
  | Some n => ret n
  | None => u <- uuid4 ;; ret (kind +:+ " " +:+ u)
  end.

(** [if origin is not None: origin = Vertex.ByCoordinates( *origin)] *)
Definition origin_vertex (origin : option (list num)) : M value :=
  match origin with
  | Some xs => call (Vertex_ByCoordinates xs)
  | None => ret VNone
  end.

(** [[Vertex.ByCoordinates( *point) for point in points]] *)
Fixpoint vertices_of (points : list (list num)) : M (list value) :=
  match points with
  | [] => ret []
  | point :: rest =>
      v <- call (Vertex_ByCoordinates point) ;;
      vs <- vertices_of rest ;;
      ret (v :: vs)
  end.

(** [*position]: unpacking [None] raises *)
Definition unpack (position : option (list num)) : M (list num) :=
  match position with
  | Some xs => ret xs
  | None => raise (TypeError "argument after * must be an iterable, not NoneType")
  end.

Definition created (article kind name : string) : string :=
  article +:+ " " +:+ kind +:+ " with name " +:+ name
    +:+ " has been created and registered".

Definition create_cylinder (radius height : num) (name : option string)
  : M string :=
  name <- default_name "cylinder" name ;;
  cylinder <- call (Cell_Cylinder radius height) ;;
  cylinder <- assign_name cylinder name ;;
  add name cylinder ;;;
  ret ("A cylinder with name " +:+ name +:+ " has been created and registered").

Definition create_prism (width length height : num) (name : option string)
  : M string :=
  name <- default_name "prism" name ;;
  prism <- call (Cell_Prism width length height) ;;
  prism <- assign_name prism name ;;
  add name prism ;;;
  ret ("A prism with name " +:+ name +:+ " has been created and registered").

Definition create_circle (radius : num) (origin : option (list num))
    (name : option string) : M string :=
  origin <- origin_vertex origin ;;
  name <- default_name "circle" name ;;
  circle <- call (Face_Circle origin radius) ;;
  circle <- assign_name circle name ;;
  add name circle ;;;
  ret ("A circle with name " +:+ name +:+ " has been created and registered").

Definition create_rectangle (length width : num) (origin : option (list num))
    (name : option string) : M string :=
  origin <- origin_vertex origin ;;
  name <- default_name "rectangle" name ;;
  rectangle <- call (Face_Rectangle origin length width) ;;
  rectangle <- assign_name rectangle name ;;
  add name rectangle ;;;
  ret ("A rectangle with name " +:+ name +:+ " has been created and registered").

Definition create_face (points : list (list num)) (name : option string)
  : M string :=
  if (List.length points <? 3)%nat then
    ret "Error: At least three points are required to create a face."
  else
    name <- default_name "face" name ;;
    vertices <- vertices_of points ;;
    face <- call (Face_ByVertices vertices) ;;
    face <- assign_name face name ;;
    add name face ;;;
    ret ("A face with name " +:+ name +:+ " has been created and registered").

Definition create_wire (points : list (list num)) (is_closed : option bool)
    (name : option string) : M string :=
  if (List.length points <? 2)%nat then
    ret "Error: At least two points are required to create a wire."
  else
    name <- default_name "wire" name ;;
    vertices <- vertices_of points ;;
    wire <- call (Wire_ByVertices vertices is_closed) ;;
    wire <- assign_name wire name ;;
    add name wire ;;;
    ret ("A wire with name " +:+ name +:+ " has been created and registered").

(** The default of [position] in [create_vertex] *)
Definition default_position : option (list num) :=
  Some [num_zero; num_zero; num_zero].

Definition create_vertex (position : option (list num)) (name : option string)
  : M string :=
  name <- default_name "vertex" name ;;
  args <- unpack position ;;
  vertex <- call (Vertex_ByCoordinates args) ;;
  vertex <- assign_name vertex name ;;
  add name vertex ;;;
  ret ("A vertex with name " +:+ name +:+ " has been created and registered").

Definition create_edge (start end_ : list num) (name : option string)
  : M string :=
  name <- default_name "edge" name ;;
  start_vertex <- call (Vertex_ByCoordinates start) ;;
  end_vertex <- call (Vertex_ByCoordinates end_) ;;
  edge <- call (Edge_ByVertices start_vertex end_vertex) ;;
  edge <- assign_name edge name ;;
  add name edge ;;;
  ret ("An edge with name " +:+ name +:+ " has been created and registered").

Definition create_cube (size : num) (origin : option (list num))
    (name : option string) : M string :=
  origin <- origin_vertex origin ;;
  name <- default_name "cube" name ;;
  cube <- call (Cell_Cube origin size) ;;
  cube <- assign_name cube name ;;
  add name cube ;;;
  ret ("A cube with name " +:+ name +:+ " has been created and registered").

Definition get_object_info (name : string) : M string :=
  obj <- get name ;;
  match obj with
  | VNone => ret ("No object found with the name '" +:+ name +:+ "'.")
  | VObj o =>
      let obj_type := type_name o in
      if String.eqb obj_type "Vertex" then
        coords <- call (Vertex_Coordinates o) ;;
        ret ("Object '" +:+ name +:+ "' is a Vertex located at coordinates "
               +:+ format_coords coords +:+ ".")
      else
        ret ("Object '" +:+ name +:+ "' is of type '" +:+ obj_type +:+ "'.")
  end.

Definition list_session_items : M string :=
  names <- get_all_names ;;
  match names with
  | [] => ret "The session is empty."
  | _ =>
      let item_list :=
        String.concat newline (map (λ name, "- " +:+ name) names) in
      ret ("Current session items:" +:+ newline +:+ item_list)
  end.

Definition clear_session : M string :=
  set_self_items [] ;;;
  ret "The session has been deleted".

(** *** Tool dispatch: the calls the agent can make ([tools=[...]] in
    [src/app.py]) *)

Inductive ShapeCall : Type :=
  | CreateCylinder (radius height : num)
  | CreatePrism (width length height : num)
  | CreateCircle (radius : num) (origin : option (list num))
  | CreateRectangle (length width : num) (origin : option (list num))
  | CreateFace (points : list (list num))
  | CreateWire (points : list (list num)) (is_closed : option bool)
  | CreateVertex (position : option (list num))
  | CreateEdge (start end_ : list num)
  | CreateCube (size : num) (origin : option (list num)).

Inductive ToolCall : Type :=
  | Create (c : ShapeCall) (name : option string)
  | GetObjectInfo (name : string)
  | ListSessionItems
  | ClearSession.

Definition create (c : ShapeCall) (name : option string) : M string :=
  match c with
  | CreateCylinder radius height => create_cylinder radius height name
  | CreatePrism width length height => create_prism width length height name
  | CreateCircle radius origin => create_circle radius origin name
  | CreateRectangle length width origin =>
      create_rectangle length width origin name
  | CreateFace points => create_face points name
  | CreateWire points is_closed => create_wire points is_closed name
  | CreateVertex position => create_vertex position name
  | CreateEdge start end_ => create_edge start end_ name
  | CreateCube size origin => create_cube size origin name
  end.

Definition invoke (t : ToolCall) : M string :=
  match t with
  | Create c name => create c name
  | GetObjectInfo name => get_object_info name
  | ListSessionItems => list_session_items
  | ClearSession => clear_session
  end.

(** The shape kind a creation tool puts in front of a synthesized name *)
Definition shape_kind (c : ShapeCall) : string :=
  match c with
  | CreateCylinder _ _ => "cylinder"
  | CreatePrism _ _ _ => "prism"
  | CreateCircle _ _ => "circle"
  | CreateRectangle _ _ _ => "rectangle"
  | CreateFace _ => "face"
  | CreateWire _ _ => "wire"
  | CreateVertex _ => "vertex"
  | CreateEdge _ _ => "edge"
  | CreateCube _ _ => "cube"
  end.

(** "A" or "An", as the confirmation strings have it *)
Definition shape_article (c : ShapeCall) : string :=
  match c with
  | CreateEdge _ _ => "An"
  | _ => "A"
  end.
End Tools.

(** ** A small executable kernel, to run the tools on concrete inputs *)

Inductive toy_obj : Type :=
  | ToyShape (ty : string) (coords : list nat) (dict : list (string * string))
  | ToyDict (kvs : list (string * string)).

Definition toy_kernel : Kernel := {|
  num := nat;
  num_zero := 0;
  Obj := toy_obj;
  Coords := list nat;
  type_name := λ o, match o with ToyShape ty _ _ => ty | ToyDict _ => "Dictionary" end;
  format_coords := λ c,
    "[" +:+ String.concat ", "
              (map (λ n, NilZero.string_of_uint (Nat.to_uint n) +:+ ".0") c)
        +:+ "]";
|}.

Definition toy_shape (ty : string) (coords : list nat) : Res (@value toy_kernel) :=
  Ok (@VObj toy_kernel (ToyShape ty coords [])).

Definition toy_Vertex_Coordinates (o : toy_obj) : Res (list nat) :=
  match o with
  | ToyShape _ c _ => Ok c
  | ToyDict _ => Raise (KernelException "not a vertex")
  end.

Definition toy_SetDictionary (obj config : @value toy_kernel)
  : Res (@value toy_kernel) :=
  match obj, config with
  | VObj (ToyShape ty c _), VObj (ToyDict kvs) =>
      Ok (@VObj toy_kernel (ToyShape ty c kvs))
  | _, _ => Ok (@VNone toy_kernel)
  end.

Definition toy_ops : @KernelOps toy_kernel :=
  @Build_KernelOps toy_kernel
    (* Vertex.ByCoordinates *) (λ xs, toy_shape "Vertex" xs)
    (* Vertex.Coordinates *) toy_Vertex_Coordinates
    (* Edge.ByVertices *) (λ _ _, toy_shape "Edge" [])
    (* Wire.ByVertices *) (λ _ _, toy_shape "Wire" [])
    (* Face.ByVertices *) (λ _, toy_shape "Face" [])
    (* Face.Rectangle *) (λ _ _ _, toy_shape "Face" [])
    (* Face.Circle *) (λ _ _, toy_shape "Face" [])
    (* Cell.Cube *) (λ _ _, toy_shape "Cell" [])
    (* Cell.Prism *) (λ _ _ _, toy_shape "Cell" [])
    (* Cell.Cylinder *) (λ _ _, toy_shape "Cell" [])
    (* Dictionary.ByKeysValues *)
    (λ ks vs, Ok (@VObj toy_kernel (ToyDict (zip ks vs))))
    (* Topology.SetDictionary *) toy_SetDictionary.

(** A source of tokens that never repeats *)
Definition counting_uuids : UuidSource := {|
  uuid4_str := λ n,
    let digits := NilZero.string_of_uint (Nat.to_uint n) in
    "00000000-0000-4000-8000-"
      +:+ String.concat "" (replicate (12 - String.length digits) "0")
      +:+ digits;
|}.


(** ** Vocabulary of the properties *)

(** The distinct elements of a list, each at the place of its first
    occurrence. *)
Fixpoint first_occurrences (l : list string) : list string :=
  match l with
  | [] => []
  | x :: xs => x :: filter (λ y, y ≠ x) (first_occurrences xs)
  end.

(** Does the character occur in the string? *)
Fixpoint has_char (c : ascii) (s : string) : bool :=
  match s with
  | EmptyString => false
  | String c' s' => Ascii.eqb c' c || has_char c s'
  end.

(** [s.split(sep)] for a one-character separator *)
Fixpoint split_on (sep : ascii) (s : string) : list string :=
  match s with
  | EmptyString => [EmptyString]
  | String c s' =>
      if Ascii.eqb c sep then EmptyString :: split_on sep s'
      else match split_on sep s' with
           | [] => [String c EmptyString]
           | l :: ls => String c l :: ls
           end
  end.

Definition lines (s : string) : list string := split_on "010"%char s.

Section Runs.
Context `{KernelOps} `{UuidSource}.

(** The world a computation leaves, and what it returns or raises *)
Definition exec {A : Type} (m : M A) (w : World) : World := snd (m w).
Definition result {A : Type} (m : M A) (w : World) : Res A := fst (m w).

Definition names (w : World) : list string := dict_keys (items (session w)).

(** A sequence of [add] calls *)
Fixpoint add_all (adds : list (string * value)) (w : World) : World :=
  match adds with
  | [] => w
  | (name, obj) :: rest => add_all rest (exec (add name obj) w)
  end.

(** Everything a caller can do to the session: its methods and the
    tools. *)
Inductive Op : Type :=
  | OpAdd (name : string) (obj : value)
  | OpGetAllNames
  | OpGet (name : string)
  | OpAddMessage (role content : string)
  | OpGetMessages
  | OpClearMessages
  | OpInvoke (t : ToolCall).

Definition step (op : Op) (w : World) : World :=
  match op with
  | OpAdd name obj => exec (add name obj) w
  | OpGetAllNames => exec get_all_names w
  | OpGet name => exec (get name) w
  | OpAddMessage role content => exec (add_message role content) w
  | OpGetMessages => exec get_messages w
  | OpClearMessages => exec clear_messages w
  | OpInvoke t => exec (invoke t) w
  end.

Fixpoint run (ops : list Op) (w : World) : World :=
  match ops with
  | [] => w
  | op :: rest => run rest (step op w)
  end.

(** A getter that hands out the list itself, for comparison with
    [get_messages]. *)
Definition get_messages_live : M loc := self_messages.

(** A computation that leaves the list objects and the [messages]
    attribute alone *)
Definition keeps_messages {A : Type} (m : M A) : Prop :=
  ∀ w, heap (exec m w) = heap w ∧
       messages (session (exec m w)) = messages (session w).

(** A list that is allocated and is not the one the session points to *)
Definition detached (r : loc) (w : World) : Prop :=
  r < length (heap w) ∧ messages (session w) ≠ r.

(** The structural precondition of a creation tool, as its docstring
    gives it: a face needs three points, a wire two. *)
Definition precondition (c : ShapeCall) : bool :=
  match c with
  | CreateFace points => (3 <=? List.length points)%nat
  | CreateWire points _ => (2 <=? List.length points)%nat
  | _ => true
  end.

(** The name a creation tool works with: the one given, or the one it
    synthesizes from the next token. *)
Definition working_name (c : ShapeCall) (name : option string) (w : World)
  : string :=
  match name with
  | Some n => n
  | None => shape_kind c +:+ " " +:+ uuid4_str (draws w)
  end.

(** The world after the name has been settled: one draw is used up when
    the name was omitted. *)
Definition after_naming (name : option string) (w : World) : World :=
  match name with
  | Some _ => w
  | None => mkWorld (heap w) (session w) (S (draws w))
  end.

(** Registering [obj] under [n] *)
Definition registered (n : string) (obj : value) (w : World) : World :=
  with_session (mkSession (dict_setitem n obj (items (session w)))
                          (messages (session w))) w.
End Runs.

(** ** [src/app.py]: one run of the script

    Streamlit runs the script from the top on every interaction.  What is
    embedded is what the script does to the session and to
    [st.session_state.messages]; the calls that only draw ([st.markdown],
    [st.table], the plot) leave both alone and are left out.  The agent is
    outside the repository: a run of [agent.stream] is given by what it
    does, in order, up to the end of the generator.  It reaches the session
    through the tools only. *)

(** What ends a run of the script early *)
Inductive app_exn : Type :=
  | IndexError
  | KeyError (key : string)
  | AgentError
  | Raised (e : exn).

Inductive Outcome (A : Type) : Type :=
  | Done (a : A)
  | Crashed (e : app_exn).
Arguments Done {A} a.
Arguments Crashed {A} e.

(** A content block is a dict; the script reads "type", "text", "name". *)
Abbreviation ContentBlock := (Dict string) (only parsing).

(** A message of the agent, as far as the script looks at it *)
Record Message : Type := mkMessage {
  content_blocks : list ContentBlock;
}.

(** The value a step has in an update: a dict that may hold "messages" *)
Record StepData : Type := mkData {
  data_messages : option (list Message);
}.

(** An update, as [chunk.items()] goes through it *)
Abbreviation Chunk := (list (string * StepData)) (only parsing).

(** [b[key]] *)
Definition block_item (b : ContentBlock) (key : string) : Outcome string :=
  match dict_lookup key b with
  | Some v => Done v
  | None => Crashed (KeyError key)
  end.

(** [data['messages'][-1].content_blocks] *)
Definition last_content (data : StepData) : Outcome (list ContentBlock) :=
  match data_messages data with
  | None => Crashed (KeyError "messages")
  | Some ms =>
      match last ms with
      | None => Crashed IndexError
      | Some m => Done (content_blocks m)
      end
  end.

(** [content[0]["text"] if content[0]["type"] != "tool_call"
     else f"Using '{content[0]['name']}' tool ..."] *)
Definition piece_of (content : list ContentBlock) : Outcome string :=
  match content with
  | [] => Crashed IndexError
  | b :: _ =>
      match block_item b "type" with
      | Crashed e => Crashed e
      | Done ty =>
          if negb (String.eqb ty "tool_call") then block_item b "text"
          else
            match block_item b "name" with
            | Crashed e => Crashed e
            | Done n => Done ("Using '" +:+ n +:+ "' tool ...")
            end
      end
  end.

(** The body of [for step, data in chunk.items()], on [last_assistant_text] *)
Definition on_step (step : string) (data : StepData)
    (last_assistant_text : string) : Outcome string :=
  match last_content data with
  | Crashed e => Crashed e
  | Done content =>
      if String.eqb step "model" then piece_of content
      else Done last_assistant_text
  end.

Fixpoint on_chunk (chunk : Chunk) (last_assistant_text : string)
  : Outcome string :=
  match chunk with
  | [] => Done last_assistant_text
  | (step, data) :: rest =>
      match on_step step data last_assistant_text with
      | Crashed e => Crashed e
      | Done text => on_chunk rest text
      end
  end.

Section App.
Context `{KernelOps} `{UuidSource}.

(** What a run of [agent.stream] does until its generator ends: it runs
    tools on the session, yields updates, and stops or raises. *)
Inductive AgentStream : Type :=
  | StreamEnd
  | StreamRaise
  | StreamTool (t : ToolCall) (rest : AgentStream)
  | StreamYield (chunk : Chunk) (rest : AgentStream).

(** The session, [st.session_state.messages] (absent until the script sets
    it) and the local [messages_for_agent] of the latest prompt. *)
Record App : Type := mkApp {
  world : World;
  ui_messages : option loc;
  messages_for_agent : option loc;
}.

Definition Script (A : Type) : Type := App → Outcome A * App.

Definition sret {A : Type} (a : A) : Script A := λ app, (Done a, app).

Definition sbind {A B : Type} (m : Script A) (k : A → Script B) : Script B :=
  λ app, match m app with
         | (Done a, app') => k a app'
         | (Crashed e, app') => (Crashed e, app')
         end.

(** A call of a session method from the script *)
Definition in_session {A : Type} (m : M A) : Script A :=
  λ app, match m (world app) with
         | (Ok a, w) => (Done a, mkApp w (ui_messages app) (messages_for_agent app))
         | (Raise e, w) =>
             (Crashed (Raised e), mkApp w (ui_messages app) (messages_for_agent app))
         end.

Definition set_ui_messages (r : loc) : Script unit :=
  λ app, (Done tt, mkApp (world app) (Some r) (messages_for_agent app)).

Definition set_messages_for_agent (r : loc) : Script unit :=
  λ app, (Done tt, mkApp (world app) (ui_messages app) (Some r)).

(** The [for chunk in agent.stream(...)] loop on the world *)
Fixpoint consume (agent : AgentStream) (last_assistant_text : string)
    (w : World) : Outcome string * World :=
  match agent with
  | StreamEnd => (Done last_assistant_text, w)
  | StreamRaise => (Crashed AgentError, w)
  | StreamTool t rest => consume rest last_assistant_text (exec (invoke t) w)
  | StreamYield chunk rest =>
      match on_chunk chunk last_assistant_text with
      | Crashed e => (Crashed e, w)
      | Done text => consume rest text w
      end
  end.

Definition stream_loop (agent : AgentStream) (last_assistant_text : string)
  : Script string :=
  λ app, let (o, w) := consume agent last_assistant_text (world app) in
         (o, mkApp w (ui_messages app) (messages_for_agent app)).
End App.

Declare Scope script_scope.
Delimit Scope script_scope with script.
Notation "x <~ m ;; k" := (sbind m (λ x, k))
  (at level 100, m at next level, right associativity) : script_scope.
Notation "m ~;; k" := (sbind m (λ _, k))
  (at level 100, right associativity) : script_scope.

Section Script.
Context `{KernelOps} `{UuidSource}.
Open Scope script_scope.

(** The body of [if prompt:], up to [st.rerun()] *)
Definition on_prompt (prompt : string) (agent : AgentStream) : Script unit :=
  in_session (add_message "user" prompt) ~;;
  shown <~ in_session get_messages ;;
  set_ui_messages shown ~;;
  for_agent <~ in_session get_messages ;;
  set_messages_for_agent for_agent ~;;
  last_assistant_text <~ stream_loop agent "" ;;
  if String.eqb last_assistant_text "" then sret tt
  else
    in_session (add_message "assistant" last_assistant_text) ~;;
    shown <~ in_session get_messages ;;
    set_ui_messages shown.

(** The "Clear chat history" button: [session.messages = []],
    [st.session_state.messages = []] *)
Definition on_clear_chat : Script unit :=
  r <~ in_session (new_list []) ;;
  in_session (set_self_messages r) ~;;
  shown <~ in_session (new_list []) ;;
  set_ui_messages shown.

(** [if "messages" not in st.session_state: ...] *)
Definition init_ui_messages : Script unit :=
  λ app, match ui_messages app with
         | Some _ => (Done tt, app)
         | None => (shown <~ in_session get_messages ;; set_ui_messages shown) app
         end.

(** What set the run off: a plain load, the clear button, or a prompt with
    the agent's run for it. *)
Inductive Event : Type :=
  | Load
  | ClearChat
  | Prompt (text : string) (agent : AgentStream).

Definition script_run (ev : Event) : Script unit :=
  match ev with
  | ClearChat => on_clear_chat
  | Load => init_ui_messages
  | Prompt text agent =>
      init_ui_messages ~;;
      if String.eqb text "" then sret tt else on_prompt text agent
  end.

(** What the chat column shows: the turns of [st.session_state.messages] *)
Definition transcript (app : App) : list ChatTurn :=
  match ui_messages app with
  | Some r => default [] (heap (world app) !! r)
  | None => []
  end.

(** The pieces the "model" steps of a run give, in order *)
Definition step_pieces (step : string) (data : StepData) : list string :=
  if String.eqb step "model" then
    match last_content data with
    | Done content =>
        match piece_of content with Done p => [p] | Crashed _ => [] end
    | Crashed _ => []
    end
  else [].

Fixpoint stream_pieces (agent : AgentStream) : list string :=
  match agent with
  | StreamEnd | StreamRaise => []
  | StreamTool _ rest => stream_pieces rest
  | StreamYield chunk rest =>
      flat_map (λ '(step, data), step_pieces step data) chunk
        ++ stream_pieces rest
  end.
End Script.

(** ** More of the vocabulary *)

Section MoreRuns.
Context `{KernelOps} `{UuidSource}.

Definition is_clear_session (op : Op) : bool :=
  match op with
  | OpInvoke ClearSession => true
  | _ => false
  end.

(** Appending a sequence of chat turns, one [add_message] each *)
Definition add_messages (turns : list ChatTurn) : list Op :=
  map (λ t, OpAddMessage (role t) (content t)) turns.

(** A computation that leaves the world as it is, whatever it gives *)
Definition untouched {A : Type} (m : M A) : Prop :=
  ∀ w r w', m w = (r, w') → w' = w.

(** The chat history a sequence of operations makes of a history: only
    [add_message] and [clear_messages] count. *)
Fixpoint history_after (ops : list Op) (h : list ChatTurn) : list ChatTurn :=
  match ops with
  | [] => h
  | OpAddMessage r c :: rest => history_after rest (h ++ [mkTurn r c])
  | OpClearMessages :: rest => history_after rest []
  | _ :: rest => history_after rest h
  end.

(** Several runs of the script, one after the other, whatever each ends in *)
Fixpoint script_runs (evs : list Event) (app : App) : App :=
  match evs with
  | [] => app
  | ev :: rest => script_runs rest (snd (script_run ev app))
  end.

(** The script as Streamlit starts it: a new session, nothing in
    [st.session_state] yet. *)
Definition App_init : App := mkApp TopologicSession_init None None.
End MoreRuns.

(** ** Worlds on the small kernel, for the examples *)

Section ToyWorlds.
#[local] Existing Instances toy_kernel toy_ops counting_uuids.

(** A session holding a vertex "v1" and a cube "c1" *)
Definition toy_scene : World :=
  run [OpInvoke (Create (CreateVertex (Some [1; 2; 3])) (Some "v1"));
       OpInvoke (Create (CreateCube 2 None) (Some "c1"))]
      TopologicSession_init.

(** A session with one chat turn *)
Definition toy_chat : World :=
  run [OpAddMessage "user" "a cube, please"] TopologicSession_init.

(** What happens to [toy_chat] after a snapshot was taken *)
Definition toy_later : list Op :=
  [OpAddMessage "assistant" "Using 'create_cube' tool ...";
   OpInvoke (Create (CreateCube 2 None) None);
   OpClearMessages;
   OpAddMessage "user" "and a face"].
End ToyWorlds.

(** ** Runs on the small kernel, for the further examples *)

(** The small kernel, but with a [Face.ByVertices] that gives [None] (as
    for points that span no face) *)
Definition degenerate_ops : @KernelOps toy_kernel :=
  @Build_KernelOps toy_kernel
    (λ xs, toy_shape "Vertex" xs)
    toy_Vertex_Coordinates
    (λ _ _, toy_shape "Edge" [])
    (λ _ _, toy_shape "Wire" [])
    (λ _, Ok (@VNone toy_kernel))
    (λ _ _ _, toy_shape "Face" [])
    (λ _ _, toy_shape "Face" [])
    (λ _ _, toy_shape "Cell" [])
    (λ _ _ _, toy_shape "Cell" [])
    (λ _ _, toy_shape "Cell" [])
    (λ ks vs, Ok (@VObj toy_kernel (ToyDict (zip ks vs))))
    toy_SetDictionary.

(** The number a string of decimal digits stands for *)
Definition numeral (s : string) : option nat :=
  Nat.of_uint <$> NilEmpty.uint_of_string s.

Section ToyRuns.
#[local] Existing Instances toy_kernel toy_ops counting_uuids.

(** A face through three points on a line, on that kernel *)
Definition flat_points : list (list nat) := [[0; 0; 0]; [1; 0; 0]; [2; 0; 0]].

Definition flat_face : M string :=
  @create toy_kernel degenerate_ops counting_uuids
    (CreateFace flat_points) (Some "f1").

(** Methods and tools, none of them [clear_session] *)
Definition toy_busy : list Op :=
  [OpInvoke (Create (CreateCube 3 None) (Some "c1"));
   OpInvoke (Create (CreateEdge [0; 0; 0] [1; 0; 0]) None);
   OpInvoke (Create (CreateVertex None) (Some "v2"));
   OpAdd "spare" VNone;
   OpInvoke (GetObjectInfo "v1");
   OpClearMessages].

(** An agent that announces a tool call, runs the tool, and answers *)
Definition toy_agent : AgentStream :=
  StreamYield
    [("model", mkData (Some [mkMessage
        [[("type", "tool_call"); ("name", "create_cube")]]]))]
    (StreamTool (Create (CreateCube 2 None) (Some "c2"))
       (StreamYield
          [("tools", mkData (Some [mkMessage
              [[("type", "text"); ("text", "A cube with name c2 ...")]]]))]
          (StreamYield
             [("model", mkData (Some [mkMessage
                 [[("type", "text"); ("text", "Here is your cube.")]]]))]
             StreamEnd))).

(** An agent whose first block is neither a tool call nor a text *)
Definition toy_thinking_agent : AgentStream :=
  StreamTool (Create (CreateCube 2 None) (Some "c2"))
    (StreamYield
       [("model", mkData (Some [mkMessage
           [[("type", "reasoning"); ("reasoning", "a cube has six faces")]]]))]
       StreamEnd).

(** The app after one exchange *)
Definition toy_app : App :=
  script_runs [Load; Prompt "a vertex, please" StreamEnd] App_init.
End ToyRuns.

(** * Properties *)

(** ** The dict *)

Section DictFacts.
Context {V : Type}.
Implicit Types (d : Dict V) (k : string) (v : V).

Lemma dict_lookup_setitem_eq k v d :
  dict_lookup k (dict_setitem k v d) = Some v.
Proof.
  induction d as [|[k' v'] d IH]; simpl.
  - by rewrite String.eqb_refl.
  - destruct (String.eqb k k') eqn:E; simpl; rewrite E; done.
Qed.

Lemma dict_lookup_setitem_ne k k' v d :
  k ≠ k' → dict_lookup k' (dict_setitem k v d) = dict_lookup k' d.
Proof.
  intros Hne. induction d as [|[k0 v0] d IH]; simpl.
  - destruct (String.eqb k' k) eqn:E; [|done].
    apply String.eqb_eq in E. congruence.
  - destruct (String.eqb k k0) eqn:E; simpl; [|by rewrite IH].
    apply String.eqb_eq in E. subst k0.
    destruct (String.eqb k' k) eqn:E'; [|done].
    apply String.eqb_eq in E'. congruence.
Qed.

Lemma dict_lookup_None k d : dict_lookup k d = None ↔ k ∉ dict_keys d.
Proof.
  unfold dict_keys. induction d as [|[k' v'] d IH]; simpl.
  - split; [intros _; apply not_elem_of_nil | done].
  - rewrite not_elem_of_cons. destruct (String.eqb k k') eqn:E.
    + apply String.eqb_eq in E. split; [done | intros [? _]; done].
    + apply String.eqb_neq in E. rewrite IH. tauto.
Qed.

Lemma dict_lookup_Some k d : is_Some (dict_lookup k d) ↔ k ∈ dict_keys d.
Proof.
  rewrite <-not_eq_None_Some, dict_lookup_None.
  destruct (decide (k ∈ dict_keys d)); tauto.
Qed.

Lemma dict_keys_setitem k v d :
  dict_keys (dict_setitem k v d) =
    if decide (k ∈ dict_keys d) then dict_keys d else dict_keys d ++ [k].
Proof.
  unfold dict_keys. induction d as [|[k' v'] d IH].
  - case_decide as Hin; [by apply elem_of_nil in Hin | done].
  - cbn [dict_setitem]. destruct (String.eqb k k') eqn:E; cbn [map fst].
    + apply String.eqb_eq in E. subst k'. clear IH.
      case_decide as Hin; [done | exfalso; apply Hin; left].
    + apply String.eqb_neq in E. rewrite IH. clear IH.
      destruct (decide (k ∈ map fst d)) as [Hin|Hin];
        destruct (decide (k ∈ k' :: map fst d)) as [Hin'|Hin']; try done.
      * exfalso. apply Hin'. by right.
      * exfalso. apply elem_of_cons in Hin' as [?|?]; done.
Qed.

Lemma dict_setitem_length k v d :
  length (dict_setitem k v d) =
    if decide (k ∈ dict_keys d) then length d else S (length d).
Proof.
  pose proof (f_equal length (dict_keys_setitem k v d)) as E.
  unfold dict_keys in E. rewrite length_map in E. rewrite E.
  destruct (decide _); rewrite ?length_app, length_map; simpl; lia.
Qed.

Lemma dict_keys_NoDup k v d :
  NoDup (dict_keys d) → NoDup (dict_keys (dict_setitem k v d)).
Proof.
  intros Hd. rewrite dict_keys_setitem. destruct (decide _) as [|Hk]; [done|].
  apply NoDup_app. split_and!; [done | | apply NoDup_singleton].
  intros x Hx ->%list_elem_of_singleton. done.
Qed.
End DictFacts.

(** ** First occurrences *)

Lemma first_occurrences_elem_of (x : string) (l : list string) :
  x ∈ first_occurrences l ↔ x ∈ l.
Proof.
  induction l as [|y l IH]; simpl; [done|].
  rewrite !elem_of_cons, list_elem_of_filter, IH.
  destruct (decide (x = y)); tauto.
Qed.

Lemma first_occurrences_NoDup (l : list string) : NoDup (first_occurrences l).
Proof.
  induction l as [|y l IH]; simpl; [constructor|].
  constructor; [|by apply NoDup_filter].
  rewrite list_elem_of_filter. tauto.
Qed.

Lemma first_occurrences_app (l1 l2 : list string) :
  first_occurrences (l1 ++ l2) =
    first_occurrences l1 ++ filter (λ y, y ∉ l1) (first_occurrences l2).
Proof.
  induction l1 as [|x l1 IH]; simpl.
  - symmetry. induction (first_occurrences l2) as [|z l IHl]; [done|].
    rewrite filter_cons_True; [by rewrite IHl | apply not_elem_of_nil].
  - f_equal. rewrite IH, filter_app. f_equal.
    rewrite list_filter_filter. apply list_filter_iff.
    intros y. rewrite not_elem_of_cons. tauto.
Qed.

Lemma first_occurrences_NoDup_id (l : list string) :
  NoDup l → first_occurrences l = l.
Proof.
  induction 1 as [|x l Hx Hl IH]; simpl; [done|].
  rewrite IH. f_equal. clear IH Hl.
  induction l as [|y l IHl]; [done|].
  apply not_elem_of_cons in Hx as [Hne Hx].
  rewrite filter_cons_True; [by rewrite IHl | congruence].
Qed.

(** ** The object store *)

Section SessionFacts.
Context `{KernelOps} `{UuidSource}.
Implicit Types (w : World) (name : string) (obj : value).

Lemma add_exec name obj w : exec (add name obj) w = registered name obj w.
Proof. done. Qed.

Lemma names_add name obj w :
  names (exec (add name obj) w) =
    if decide (name ∈ names w) then names w else names w ++ [name].
Proof. apply dict_keys_setitem. Qed.

Lemma get_result name w :
  result (get name) w = Ok (default VNone (dict_lookup name (items (session w)))).
Proof. done. Qed.

Lemma names_add_all (adds : list (string * value)) w :
  names (add_all adds w) =
    names w ++ filter (λ n, n ∉ names w) (first_occurrences (map fst adds)).
Proof.
  revert w. induction adds as [|[n o] adds IH]; intros w; simpl.
  - by rewrite filter_nil, app_nil_r.
  - rewrite IH, names_add. destruct (decide (n ∈ names w)) as [Hin|Hin].
    + f_equal. rewrite filter_cons_False by tauto.
      rewrite list_filter_filter. apply list_filter_iff.
      intros y. split; [intros ?; split; [done | congruence] | tauto].
    + rewrite filter_cons_True by done.
      rewrite <-app_assoc. simpl. do 2 f_equal.
      rewrite list_filter_filter. apply list_filter_iff.
      intros y. rewrite not_elem_of_app, list_elem_of_singleton. tauto.
Qed.

(** *** The frame of the operations: who touches the list objects and
    the [messages] attribute *)

Lemma keeps_ret {A : Type} (a : A) : keeps_messages (ret a).
Proof. done. Qed.

Lemma keeps_raise {A : Type} (e : exn) : keeps_messages (raise (A:=A) e).
Proof. done. Qed.

Lemma keeps_call {A : Type} (r : Res A) : keeps_messages (call r).
Proof. done. Qed.

Lemma keeps_bind {A B : Type} (m : M A) (k : A → M B) :
  keeps_messages m → (∀ a, keeps_messages (k a)) → keeps_messages (bind m k).
Proof.
  intros Hm Hk w. specialize (Hm w). unfold exec, bind in *.
  destruct (m w) as [[a|e] w1]; simpl in *; [|done].
  destruct Hm as [<- <-]. apply (Hk a w1).
Qed.

Lemma keeps_self_items : keeps_messages self_items.
Proof. done. Qed.

Lemma keeps_set_self_items d : keeps_messages (set_self_items d).
Proof. done. Qed.

Lemma keeps_uuid4 : keeps_messages uuid4.
Proof. done. Qed.
End SessionFacts.

Create HintDb frame discriminated.
#[export] Hint Resolve keeps_ret keeps_raise keeps_call keeps_self_items
  keeps_set_self_items keeps_uuid4 : frame.

(** Walks a computation along its binds and case distinctions. *)
Ltac frame :=
  repeat first
    [ apply keeps_bind; [|intros ?]
    | solve [auto with frame]
    | match goal with
      | |- keeps_messages (match ?x with _ => _ end) => destruct x
      | |- keeps_messages (if ?b then _ else _) => destruct b
      end ].

Section ToolFrame.
Context `{KernelOps} `{UuidSource}.

Lemma keeps_add name obj : keeps_messages (add name obj).
Proof. unfold add. frame. Qed.

Lemma keeps_get name : keeps_messages (get name).
Proof. unfold get. frame. Qed.

Lemma keeps_get_all_names : keeps_messages get_all_names.
Proof. unfold get_all_names. frame. Qed.

Lemma keeps_assign_name obj name : keeps_messages (assign_name obj name).
Proof. unfold assign_name. frame. Qed.

Lemma keeps_default_name kind name : keeps_messages (default_name kind name).
Proof. unfold default_name. frame. Qed.

Lemma keeps_origin_vertex origin : keeps_messages (origin_vertex origin).
Proof. unfold origin_vertex. frame. Qed.

Lemma keeps_unpack position : keeps_messages (unpack position).
Proof. unfold unpack. frame. Qed.

Lemma keeps_vertices_of points : keeps_messages (vertices_of points).
Proof. induction points; simpl; frame. Qed.

Hint Resolve keeps_add keeps_get keeps_get_all_names keeps_assign_name
  keeps_default_name keeps_origin_vertex keeps_unpack keeps_vertices_of
  : frame.

Lemma keeps_create c name : keeps_messages (create c name).
Proof.
  destruct c; simpl;
    unfold create_cylinder, create_prism, create_circle, create_rectangle,
      create_face, create_wire, create_vertex, create_edge, create_cube;
    frame.
Qed.

Lemma keeps_invoke t : keeps_messages (invoke t).
Proof.
  destruct t; simpl; [apply keeps_create | | |];
    unfold get_object_info, list_session_items, clear_session; frame.
Qed.
End ToolFrame.

Section StoreClaims.
Context `{KernelOps} `{UuidSource}.
Implicit Types (w : World) (name : string) (obj : value).

(** C2: [add(name, obj)] always returns its confirmation, and a [get(name)]
    after it returns that same object.  The other names keep their
    objects, and a name that was already there is overwritten in place:
    the list of names does not change and [get] returns the new object. *)
Theorem add_then_get w name obj :
  result (add name obj) w = Ok ("Object '" +:+ name +:+ "' saved.")
  ∧ get name (exec (add name obj) w) = (Ok obj, exec (add name obj) w)
  ∧ (∀ other, other ≠ name →
       result (get other) (exec (add name obj) w) = result (get other) w)
  ∧ names (exec (add name obj) w) =
      (if decide (name ∈ names w) then names w else names w ++ [name])
  ∧ (∀ old,
       let w1 := exec (add name old) w in
       result (add name obj) w1 = Ok ("Object '" +:+ name +:+ "' saved.")
       ∧ result (get name) (exec (add name obj) w1) = Ok obj
       ∧ names (exec (add name obj) w1) = names w1).
Proof.
  split_and!.
  - done.
  - unfold get, bind, self_items, ret. rewrite add_exec. simpl.
    by rewrite dict_lookup_setitem_eq.
  - intros other Hne. rewrite !get_result, add_exec. simpl.
    by rewrite dict_lookup_setitem_ne.
  - apply names_add.
  - intros old w1. split_and!.
    + done.
    + rewrite get_result, add_exec. simpl.
      by rewrite dict_lookup_setitem_eq.
    + rewrite names_add. rewrite decide_True; [done|].
      apply dict_lookup_Some. subst w1. rewrite add_exec. simpl.
      rewrite dict_lookup_setitem_eq. by eexists.
Qed.

(** C3: [clear_session] leaves the store without items and does not touch
    the chat history (neither the list object nor the reference to it);
    [clear_messages] leaves the session with an empty chat history and
    does not touch the items. *)
Theorem clear_session_and_clear_messages_frames w :
  (result clear_session w = Ok "The session has been deleted"
   ∧ items (session (exec clear_session w)) = []
   ∧ current_messages (exec clear_session w) = current_messages w
   ∧ heap (exec clear_session w) = heap w
   ∧ messages (session (exec clear_session w)) = messages (session w))
  ∧ (result clear_messages w = Ok true
     ∧ current_messages (exec clear_messages w) = []
     ∧ items (session (exec clear_messages w)) = items (session w)).
Proof.
  split; split_and!; try done.
  unfold current_messages, exec, clear_messages, bind, new_list,
    set_self_messages, ret. simpl.
  by rewrite list_lookup_middle.
Qed.

(** Each [clear_messages] makes a new list object, so the worlds after one
    and after two calls differ in what is allocated, not in what the
    session holds. *)
Lemma clear_messages_allocates w :
  length (heap (exec clear_messages w)) = S (length (heap w))
  ∧ messages (session (exec clear_messages w)) = length (heap w).
Proof.
  unfold exec, clear_messages, bind, new_list, set_self_messages, ret. simpl.
  rewrite length_app. simpl. split; [lia | done].
Qed.

(** C8: both resets leave their target empty, and running one twice gives
    the session that running it once gives: the same items and the same
    chat history.  (The items are reset by the tool [clear_session]; the
    session class has no method for it.) *)
Theorem clear_idempotent w :
  (current_messages (exec clear_messages w) = []
   ∧ view (exec clear_messages (exec clear_messages w)) =
       view (exec clear_messages w))
  ∧ (items (session (exec clear_session w)) = []
     ∧ exec clear_session (exec clear_session w) = exec clear_session w).
Proof.
  assert (Hm : ∀ w0, current_messages (exec clear_messages w0) = []).
  { intros w0. unfold current_messages, exec, clear_messages, bind, new_list,
      set_self_messages, ret. simpl. by rewrite list_lookup_middle. }
  split; split.
  - apply Hm.
  - unfold view. rewrite !Hm. done.
  - done.
  - done.
Qed.

(** C9: after any sequence of [add] calls on a new session,
    [get_all_names] returns the distinct names, each once, in the order of
    their first [add]; from any session, the names already there stay in
    front in their order; and an [add] under a name that is there leaves
    the list of names as it is while [get] returns the new object. *)
Theorem get_all_names_first_insertion_order
    (adds : list (string * value)) w name obj :
  result get_all_names (add_all adds TopologicSession_init) =
    Ok (first_occurrences (map fst adds))
  ∧ NoDup (first_occurrences (map fst adds))
  ∧ (∀ n, n ∈ first_occurrences (map fst adds) ↔ n ∈ map fst adds)
  ∧ result get_all_names (add_all adds w) =
      Ok (names w ++
          filter (λ n, n ∉ names w) (first_occurrences (map fst adds)))
  ∧ result get_all_names (exec (add name obj) w) =
      Ok (if decide (name ∈ names w) then names w else names w ++ [name])
  ∧ result (get name) (exec (add name obj) w) = Ok obj.
Proof.
  split_and!.
  - change (result get_all_names ?x) with (Ok (names x)).
    rewrite names_add_all. simpl. f_equal.
    induction (first_occurrences _) as [|z l IHl]; [done|].
    rewrite filter_cons_True; [by rewrite IHl | apply not_elem_of_nil].
  - apply first_occurrences_NoDup.
  - intros n. apply first_occurrences_elem_of.
  - change (result get_all_names ?x) with (Ok (names x)).
    by rewrite names_add_all.
  - change (result get_all_names ?x) with (Ok (names x)).
    by rewrite names_add.
  - rewrite get_result, add_exec. simpl. by rewrite dict_lookup_setitem_eq.
Qed.
End StoreClaims.

(** ** Chat history: list objects and who can reach them *)

Section Snapshot.
Context `{KernelOps} `{UuidSource}.
Implicit Types (w : World) (r : loc).

Lemma wf_init : wf TopologicSession_init.
Proof. unfold wf. simpl. lia. Qed.

Lemma step_detached op r w :
  detached r w →
  detached r (step op w) ∧ heap (step op w) !! r = heap w !! r.
Proof.
  intros [Hr Hne]. destruct op; cbn [step];
    try (match goal with
         | |- context [exec ?m w] =>
             let K := fresh in
             assert (K : keeps_messages m) by auto using keeps_add,
               keeps_get, keeps_get_all_names, keeps_invoke;
             unfold detached; destruct (K w) as [-> ->]; done
         end).
  - (* add_message *)
    unfold detached, exec, add_message, bind, self_messages, list_append,
      ret. simpl. rewrite length_alter, list_lookup_alter_ne by done. done.
  - (* get_messages *)
    unfold detached, exec, get_messages, bind, self_messages, read_list,
      new_list. simpl. rewrite length_app, lookup_app_l by done.
    split; [split; [lia | done] | done].
  - (* clear_messages *)
    unfold detached, exec, clear_messages, bind, new_list,
      set_self_messages, ret. simpl.
    rewrite length_app, lookup_app_l by done.
    split; [split; [lia | lia] | done].
Qed.

Lemma run_detached ops r w :
  detached r w →
  detached r (run ops w) ∧ heap (run ops w) !! r = heap w !! r.
Proof.
  revert w. induction ops as [|op ops IH]; intros w Hd; simpl; [done|].
  destruct (step_detached op r w Hd) as [Hd' <-]. by apply IH.
Qed.

Lemma step_wf op w : wf w → wf (step op w).
Proof.
  unfold wf. intros Hw. destruct op; cbn [step];
    try (match goal with
         | |- context [exec ?m w] =>
             let K := fresh in
             assert (K : keeps_messages m) by auto using keeps_add,
               keeps_get, keeps_get_all_names, keeps_invoke;
             destruct (K w) as [-> ->]; done
         end).
  - unfold exec, add_message, bind, self_messages, list_append, ret. simpl.
    by rewrite length_alter.
  - unfold exec, get_messages, bind, self_messages, read_list, new_list.
    simpl. rewrite length_app. lia.
  - unfold exec, clear_messages, bind, new_list, set_self_messages, ret.
    simpl. rewrite length_app. simpl. lia.
Qed.

Lemma run_wf ops w : wf w → wf (run ops w).
Proof.
  revert w. induction ops as [|op ops IH]; intros w Hw; simpl; [done|].
  by apply IH, step_wf.
Qed.

(** Had [get_messages] returned [self.messages] itself, a later
    [add_message] would show through the returned list. *)
Lemma live_reference_is_affected w role content :
  wf w →
  ∃ r, result get_messages_live w = Ok r
       ∧ exec get_messages_live w = w
       ∧ heap (exec (add_message role content) w) !! r =
           Some (current_messages w ++ [mkTurn role content]).
Proof.
  intros Hw. destruct (lookup_lt_is_Some_2 _ _ Hw) as [l Hl].
  exists (messages (session w)). split_and!; try done.
  unfold current_messages. rewrite Hl.
  unfold exec, add_message, bind, self_messages, list_append, ret.
  cbn [snd heap with_heap]. rewrite list_lookup_alter_eq, Hl. done.
Qed.

(** C5: [get_messages] returns a new list object holding the chat history
    of that moment.  It is not the list the session appends to, and
    whatever is done to the session afterwards ([add_message],
    [clear_messages], or any other method or tool) its contents stay what
    they were. *)
Theorem get_messages_snapshot w (ops : list Op) :
  wf w →
  ∃ r,
    result get_messages w = Ok r
    ∧ r ≠ messages (session (exec get_messages w))
    ∧ view (exec get_messages w) = view w
    ∧ heap (exec get_messages w) !! r = Some (current_messages w)
    ∧ heap (run ops (exec get_messages w)) !! r = Some (current_messages w).
Proof.
  intros Hw. exists (length (heap w)).
  assert (Hr : heap (exec get_messages w) !! length (heap w)
               = Some (current_messages w)).
  { unfold exec, get_messages, bind, self_messages, read_list, new_list.
    simpl. by rewrite list_lookup_middle. }
  assert (Hd : detached (length (heap w)) (exec get_messages w)).
  { unfold detached, exec, get_messages, bind, self_messages, read_list,
      new_list. simpl. rewrite length_app. simpl. unfold wf in Hw. lia. }
  split_and!.
  - done.
  - destruct Hd as [_ Hd]. congruence.
  - unfold view, current_messages, exec, get_messages, bind, self_messages,
      read_list, new_list. simpl. by rewrite lookup_app_l.
  - done.
  - destruct (run_detached ops _ _ Hd) as [_ ->]. done.
Qed.
End Snapshot.

(** ** Stepping through a tool that returned *)

Section Inversion.
Context `{KernelOps} `{UuidSource}.
Implicit Types (w : World) (name : string).

Lemma bind_Ok {A B : Type} (m : M A) (k : A → M B) w b w' :
  bind m k w = (Ok b, w') →
  ∃ a w1, m w = (Ok a, w1) ∧ k a w1 = (Ok b, w').
Proof.
  unfold bind. destruct (m w) as [[a|e] w1]; [eauto | discriminate].
Qed.

Lemma ret_Ok {A : Type} (a b : A) w w' :
  ret a w = (Ok b, w') → b = a ∧ w' = w.
Proof. unfold ret. by intros [= -> ->]. Qed.

Lemma call_Ok {A : Type} (r : Res A) (a : A) w w' :
  call r w = (Ok a, w') → r = Ok a ∧ w' = w.
Proof. unfold call. by intros [= -> ->]. Qed.

Lemma add_Ok name obj w s w' :
  add name obj w = (Ok s, w') → w' = registered name obj w.
Proof. unfold add, bind, self_items, set_self_items, ret. by intros [= _ <-]. Qed.

Lemma default_name_Ok (c : ShapeCall) (name : option string) w n w' :
  default_name (shape_kind c) name w = (Ok n, w') →
  n = working_name c name w ∧ w' = after_naming name w.
Proof.
  destruct name; unfold default_name, bind, uuid4, ret; simpl;
    by intros [= <- <-].
Qed.

Lemma origin_vertex_Ok origin w v w' :
  origin_vertex origin w = (Ok v, w') → w' = w.
Proof.
  destruct origin; unfold origin_vertex, call, ret; by intros [= _ <-].
Qed.

Lemma unpack_Ok position w xs w' :
  unpack position w = (Ok xs, w') → w' = w.
Proof.
  destruct position; unfold unpack, raise, ret; [by intros [= _ <-] | done].
Qed.

Lemma vertices_of_Ok points w vs w' :
  vertices_of points w = (Ok vs, w') → w' = w.
Proof.
  revert vs w'. induction points as [|p points IH]; intros vs w'; simpl.
  - by intros [_ ->]%ret_Ok.
  - intros (v & w1 & [_ ->]%call_Ok & (vs' & w2 & ->%IH & [_ ->]%ret_Ok)%bind_Ok)%bind_Ok.
    done.
Qed.

Lemma assign_name_Ok obj name w named w' :
  assign_name obj name w = (Ok named, w') →
  w' = w ∧
  ∃ config,
    Dictionary_ByKeysValues ["name"] [name] = Ok config
    ∧ Topology_SetDictionary obj config = Ok named.
Proof.
  unfold assign_name.
  intros (config & w1 & [Hc ->]%call_Ok
          & (o & w2 & [Ho ->]%call_Ok & [-> ->]%ret_Ok)%bind_Ok)%bind_Ok.
  eauto.
Qed.
End Inversion.

(** Takes a returned creation tool apart, call by call. *)
Ltac returned Hc :=
  repeat match goal with
    | K : bind _ _ _ = (Ok _, _) |- _ =>
        apply bind_Ok in K as (? & ? & ? & K)
    | K : ret _ _ = (Ok _, _) |- _ => apply ret_Ok in K as [? ?]
    | K : call _ _ = (Ok _, _) |- _ => apply call_Ok in K as [? ?]
    | K : add _ _ _ = (Ok _, _) |- _ => apply add_Ok in K
    | K : origin_vertex _ _ = (Ok _, _) |- _ => apply origin_vertex_Ok in K
    | K : unpack _ _ = (Ok _, _) |- _ => apply unpack_Ok in K
    | K : vertices_of _ _ = (Ok _, _) |- _ => apply vertices_of_Ok in K
    | K : assign_name _ _ _ = (Ok _, _) |- _ =>
        apply assign_name_Ok in K as (? & ? & ? & ?)
    end.

Section Creation.
Context `{KernelOps} `{UuidSource}.
Implicit Types (w : World) (c : ShapeCall) (name : option string).

(** What a creation tool that got past its validation and returned has
    done: settled the name, built a shape, attached the name to it and
    registered the result under it. *)
Lemma create_returned c name w msg w' :
  precondition c = true →
  create c name w = (Ok msg, w') →
  ∃ shape config named,
    Dictionary_ByKeysValues ["name"] [working_name c name w] = Ok config
    ∧ Topology_SetDictionary shape config = Ok named
    ∧ w' = registered (working_name c name w) named (after_naming name w)
    ∧ msg = created (shape_article c) (shape_kind c) (working_name c name w).
Proof.
  intros Hpre Hc. destruct c; cbn [create precondition] in Hpre, Hc;
    unfold create_cylinder, create_prism, create_circle, create_rectangle,
      create_face, create_wire, create_vertex, create_edge, create_cube in Hc;
    rewrite ?Nat.ltb_antisym, ?Hpre in Hc; cbn [negb] in Hc.
  all: returned Hc.
  all: repeat match goal with
         | K : default_name _ _ _ = (Ok _, _) |- _ =>
             first [ apply (default_name_Ok (CreateCylinder num_zero num_zero)) in K
                   | apply (default_name_Ok (CreatePrism num_zero num_zero num_zero)) in K
                   | apply (default_name_Ok (CreateCircle num_zero None)) in K
                   | apply (default_name_Ok (CreateRectangle num_zero num_zero None)) in K
                   | apply (default_name_Ok (CreateFace [])) in K
                   | apply (default_name_Ok (CreateWire [] None)) in K
                   | apply (default_name_Ok (CreateVertex None)) in K
                   | apply (default_name_Ok (CreateEdge [] [])) in K
                   | apply (default_name_Ok (CreateCube num_zero None)) in K ];
             destruct K as [? ?]
         end.
  all: subst; eexists _, _, _; split_and!; eauto.
Qed.
End Creation.

(** ** The creation tools *)

Section NameFacts.
Context `{Kernel}.

(** No shape kind is the beginning of another, so the kind and the token
    can be read back from a synthesized name. *)
Lemma synthesized_name_inj (c1 c2 : ShapeCall) (t1 t2 : string) :
  shape_kind c1 +:+ " " +:+ t1 = shape_kind c2 +:+ " " +:+ t2 →
  shape_kind c1 = shape_kind c2 ∧ t1 = t2.
Proof.
  destruct c1, c2; cbn [shape_kind]; intros Heq;
    cbv beta iota delta [String.append] in Heq;
    first [ discriminate Heq | by injection Heq as -> ].
Qed.
End NameFacts.

Section CreationClaims.
Context `{KernelOps} `{UuidSource}.
Implicit Types (w : World) (c : ShapeCall) (name : option string).

(** C1: [create_face] with fewer than three points and [create_wire] with
    fewer than two return their error string, they do not raise, and the
    world they leave is the one they found: the same items, the same chat
    history, no token drawn. *)
Theorem precondition_violation_returns_error
    w (face_points wire_points : list (list num)) (is_closed : option bool)
    name :
  length face_points < 3 →
  length wire_points < 2 →
  invoke (Create (CreateFace face_points) name) w =
    (Ok "Error: At least three points are required to create a face.", w)
  ∧ invoke (Create (CreateWire wire_points is_closed) name) w =
      (Ok "Error: At least two points are required to create a wire.", w)
  ∧ items (session (exec (create_face face_points name) w)) =
      items (session w)
  ∧ items (session (exec (create_wire wire_points is_closed name) w)) =
      items (session w).
Proof.
  intros Hf Hw. cbn [invoke create]. unfold exec, create_face, create_wire.
  apply Nat.ltb_lt in Hf, Hw. rewrite Hf, Hw. done.
Qed.

(** C10: a creation tool that got past its validation and returned has
    used one name throughout, the one given or else the one synthesized:
    the metadata attached to the shape is [{"name": n}], the store holds
    the named shape under [n], and the confirmation is the sentence for
    [n].  The store differs from the one before in that entry only, which
    is new at the end or replaces the one that was under [n]. *)
Theorem creation_uses_one_name c name w msg w' :
  precondition c = true →
  create c name w = (Ok msg, w') →
  let n := working_name c name w in
  ∃ shape config named,
    Dictionary_ByKeysValues ["name"] [n] = Ok config
    ∧ Topology_SetDictionary shape config = Ok named
    ∧ result (assign_name shape n) w = Ok named
    ∧ items (session w') = dict_setitem n named (items (session w))
    ∧ dict_lookup n (items (session w')) = Some named
    ∧ msg = shape_article c +:+ " " +:+ shape_kind c +:+ " with name " +:+ n
              +:+ " has been created and registered"
    ∧ (∀ k, k ≠ n →
         dict_lookup k (items (session w')) = dict_lookup k (items (session w)))
    ∧ names w' = (if decide (n ∈ names w) then names w else names w ++ [n])
    ∧ length (items (session w')) =
        (if decide (n ∈ names w) then length (items (session w))
         else S (length (items (session w)))).
Proof.
  intros Hpre Hc n.
  destruct (create_returned c name w msg w' Hpre Hc)
    as (shape & config & named & Hcfg & Hset & -> & ->).
  fold n in Hcfg |- *.
  assert (Hitems : items (session (registered n named (after_naming name w)))
                   = dict_setitem n named (items (session w))).
  { by destruct name. }
  exists shape, config, named. split_and!; try done.
  - unfold result, assign_name, bind, call, ret. simpl.
    rewrite Hcfg. simpl. rewrite Hset. done.
  - rewrite Hitems. apply dict_lookup_setitem_eq.
  - intros k Hk. rewrite Hitems. by apply dict_lookup_setitem_ne.
  - unfold names. rewrite Hitems. apply dict_keys_setitem.
  - rewrite Hitems. apply dict_setitem_length.
Qed.
End CreationClaims.

(** ** The inspection tools *)

Section Lines.
Lemma append_cons (a : ascii) (s t : string) :
  String a s +:+ t = String a (s +:+ t).
Proof. reflexivity. Qed.

Lemma has_char_append (c : ascii) (s t : string) :
  has_char c (s +:+ t) = has_char c s || has_char c t.
Proof.
  induction s as [|a s IH]; [done|].
  rewrite append_cons. simpl. rewrite IH. by rewrite orb_assoc.
Qed.

Lemma split_on_whole (sep : ascii) (s : string) :
  has_char sep s = false → split_on sep s = [s].
Proof.
  induction s as [|a s IH]; simpl; [done|].
  intros [Ha Hs]%orb_false_elim. rewrite Ha, IH by done. done.
Qed.

Lemma split_on_append (sep : ascii) (s t : string) :
  has_char sep s = false →
  split_on sep (s +:+ String sep t) = s :: split_on sep t.
Proof.
  induction s as [|a s IH]; intros Hs.
  - change (EmptyString +:+ String sep t) with (String sep t).
    simpl. by rewrite Ascii.eqb_refl.
  - simpl in Hs. apply orb_false_elim in Hs as [Ha Hs].
    rewrite append_cons. simpl. rewrite Ha, IH by done. done.
Qed.

(** Joining lines with newlines and splitting at newlines gives the lines
    back, when there is at least one and none has a newline inside. *)
Lemma lines_concat (ls : list string) :
  ls ≠ [] →
  Forall (λ l, has_char "010"%char l = false) ls →
  lines (String.concat newline ls) = ls.
Proof.
  intros Hne Hls. unfold lines.
  induction Hls as [|l ls Hl Hls IH]; [done|].
  destruct ls as [|l' ls].
  - simpl. by apply split_on_whole.
  - change (String.concat newline (l :: l' :: ls))
      with (l +:+ String "010"%char (String.concat newline (l' :: ls))).
    rewrite split_on_append by done. f_equal. by apply IH.
Qed.
End Lines.

Section InspectionClaims.
Context `{KernelOps} `{UuidSource}.
Implicit Types (w : World) (name : string).

(** C6: on a store without items [list_session_items] returns "The session
    is empty."; otherwise it returns the heading "Current session items:"
    and, joined to it by newlines, one "- <name>" for each stored name in
    the order of [get_all_names].  Read line by line (no name having a
    newline inside) that is the heading and then exactly those lines.  It
    changes nothing.  After a cube has been created as "c1" in an empty
    store, the listing is the heading and the line "- c1". *)
Theorem list_session_items_output w :
  exec list_session_items w = w
  ∧ (names w = [] →
     result list_session_items w = Ok "The session is empty.")
  ∧ (names w ≠ [] →
     ∃ out,
       result list_session_items w = Ok out
       ∧ out = "Current session items:" +:+ newline +:+
               String.concat newline (map (λ n, "- " +:+ n) (names w))
       ∧ (Forall (λ n, has_char "010"%char n = false) (names w) →
          lines out =
            "Current session items:" :: map (λ n, "- " +:+ n) (names w)))
  ∧ (∀ size origin w0 msg,
       names w0 = [] →
       create_cube size origin (Some "c1") w0 = (Ok msg, w) →
       result list_session_items w =
         Ok ("Current session items:" +:+ newline +:+ "- c1")).
Proof.
  assert (Hrun : ∀ w0,
    list_session_items w0 =
      (Ok match names w0 with
          | [] => "The session is empty."
          | _ => "Current session items:" +:+ newline +:+
                 String.concat newline (map (λ n, "- " +:+ n) (names w0))
          end, w0)).
  { intros w0. unfold list_session_items, get_all_names, bind, self_items,
      ret, names. by destruct (dict_keys (items (session w0))). }
  unfold exec, result. rewrite Hrun. split_and!.
  - done.
  - by intros ->.
  - intros Hne. destruct (names w) as [|n ns] eqn:E; [done|].
    eexists. split_and!; [done | done |].
    intros Hns. unfold lines at 1.
    change (newline +:+ ?x) with (String "010"%char x).
    rewrite split_on_append by done.
    f_equal. apply lines_concat; [done|].
    apply Forall_fmap. eapply Forall_impl; [exact Hns|].
    intros x Hx. simpl. rewrite has_char_append. by rewrite Hx.
  - intros size origin w0 msg Hw0 Hc.
    apply (create_returned (CreateCube size origin) (Some "c1")) in Hc
      as (shape & config & named & _ & _ & -> & _); [|done].
    unfold names, registered in *. simpl in *.
    destruct (items (session w0)); [done | discriminate].
Qed.

(** A name under which [None] itself was stored (a kernel constructor that
    returned [None]) is reported like a name that is not there. *)
Lemma stored_None_reads_as_absent w name :
  dict_lookup name (items (session w)) = Some VNone →
  get_object_info name w =
    (Ok ("No object found with the name '" +:+ name +:+ "'."), w).
Proof.
  intros Hn. unfold get_object_info, get, bind, self_items, ret.
  by rewrite Hn.
Qed.

(** C7: for a name that is not in the store, [get] returns [None] and
    [get_object_info] returns the sentence "No object found with the name
    '<name>'."; neither raises nor changes anything.  For an object in the
    store, [get_object_info] gives its type name, and for one whose type
    name is "Vertex" it gives instead the coordinates the kernel reports
    for it. *)
Theorem lookups_of_absent_names w name :
  (name ∉ names w →
     get name w = (Ok VNone, w)
     ∧ get_object_info name w =
         (Ok ("No object found with the name '" +:+ name +:+ "'."), w))
  ∧ (∀ o, dict_lookup name (items (session w)) = Some (VObj o) →
       get name w = (Ok (VObj o), w)
       ∧ (type_name o ≠ "Vertex" →
          get_object_info name w =
            (Ok ("Object '" +:+ name +:+ "' is of type '"
                   +:+ type_name o +:+ "'."), w))
       ∧ (type_name o = "Vertex" →
          ∀ coords, Vertex_Coordinates o = Ok coords →
            get_object_info name w =
              (Ok ("Object '" +:+ name
                     +:+ "' is a Vertex located at coordinates "
                     +:+ format_coords coords +:+ "."), w))).
Proof.
  split.
  - intros Habs%dict_lookup_None.
    unfold get_object_info, get, bind, self_items, ret. by rewrite Habs.
  - intros o Ho. split_and!.
    + unfold get, bind, self_items, ret. by rewrite Ho.
    + intros Hty%String.eqb_neq.
      unfold get_object_info, get, bind, self_items, ret.
      rewrite Ho. simpl. by rewrite Hty.
    + intros Hty%String.eqb_eq coords Hco.
      unfold get_object_info, get, bind, self_items, ret, call.
      rewrite Ho. simpl. rewrite Hty, Hco. done.
Qed.
End InspectionClaims.

(** ** The tools at work on the small kernel *)

Section Executions.
#[local] Existing Instances toy_kernel toy_ops counting_uuids.

Example toy_scene_listing :
  result list_session_items toy_scene =
    Ok ("Current session items:" +:+ newline +:+ "- v1" +:+ newline +:+ "- c1").
Proof. reflexivity. Qed.

Example toy_scene_vertex_info :
  result (get_object_info "v1") toy_scene =
    Ok "Object 'v1' is a Vertex located at coordinates [1.0, 2.0, 3.0].".
Proof. reflexivity. Qed.

Example unpacking_None_raises :
  result (create_vertex None (Some "v")) toy_scene =
    Raise (TypeError "argument after * must be an iterable, not NoneType").
Proof. reflexivity. Qed.

Example first_occurrences_example :
  first_occurrences ["b"; "a"; "b"; "c"; "a"] = ["b"; "a"; "c"].
Proof. reflexivity. Qed.

Lemma precondition_violation_witness :
  length [[0; 0]; [1; 0]] < 3
  ∧ length [[0; 0; 0]] < 2
  ∧ invoke (Create (CreateFace [[0; 0]; [1; 0]]) None) toy_scene =
      (Ok "Error: At least three points are required to create a face.",
       toy_scene)
  ∧ invoke (Create (CreateWire [[0; 0; 0]] (Some true)) None) toy_scene =
      (Ok "Error: At least two points are required to create a wire.",
       toy_scene).
Proof.
  assert (Hf : length [[0; 0]; [1; 0]] < 3) by (simpl; repeat constructor).
  assert (Hw : length [[0; 0; 0]] < 2) by (simpl; repeat constructor).
  destruct (precondition_violation_returns_error
              toy_scene [[0; 0]; [1; 0]] [[0; 0; 0]] (Some true) None Hf Hw)
    as (Hface & Hwire & _).
  split_and!; [exact Hf | exact Hw | exact Hface | exact Hwire].
Defined.

Lemma get_messages_snapshot_witness :
  wf toy_chat
  ∧ ∃ r,
      result get_messages toy_chat = Ok r
      ∧ heap (run toy_later (exec get_messages toy_chat)) !! r =
          Some [mkTurn "user" "a cube, please"]
      ∧ current_messages (run toy_later (exec get_messages toy_chat)) =
          [mkTurn "user" "and a face"].
Proof.
  assert (Hw : wf toy_chat) by (vm_compute; repeat constructor).
  split; [exact Hw|].
  destruct (get_messages_snapshot toy_chat toy_later Hw)
    as (r & Hr & _ & _ & _ & Hlater).
  exists r. split_and!; [exact Hr | exact Hlater | reflexivity].
Defined.

Lemma creation_uses_one_name_witness :
  precondition (CreateEdge [0; 0; 0] [1; 0; 0]) = true
  ∧ create (CreateEdge [0; 0; 0] [1; 0; 0]) None toy_scene =
      (Ok "An edge with name edge 00000000-0000-4000-8000-000000000000 has been created and registered",
       exec (create (CreateEdge [0; 0; 0] [1; 0; 0]) None) toy_scene)
  ∧ ∃ named,
      dict_lookup "edge 00000000-0000-4000-8000-000000000000"
        (items (session (exec (create (CreateEdge [0; 0; 0] [1; 0; 0]) None)
                           toy_scene))) = Some named
      ∧ names (exec (create (CreateEdge [0; 0; 0] [1; 0; 0]) None) toy_scene)
        = ["v1"; "c1"; "edge 00000000-0000-4000-8000-000000000000"].
Proof.
  assert (Hp : precondition (CreateEdge [0; 0; 0] [1; 0; 0]) = true)
    by reflexivity.
  assert (Hc : create (CreateEdge [0; 0; 0] [1; 0; 0]) None toy_scene =
      (Ok "An edge with name edge 00000000-0000-4000-8000-000000000000 has been created and registered",
       exec (create (CreateEdge [0; 0; 0] [1; 0; 0]) None) toy_scene))
    by reflexivity.
  split_and!; [exact Hp | exact Hc |].
  destruct (creation_uses_one_name _ _ _ _ _ Hp Hc)
    as (shape & config & named & _ & _ & _ & _ & Hlook & _ & _ & Hnames & _).
  exists named. split; [exact Hlook | exact Hnames].
Defined.

Lemma list_session_items_witness :
  result list_session_items TopologicSession_init = Ok "The session is empty."
  ∧ ∃ out,
      result list_session_items toy_scene = Ok out
      ∧ lines out = ["Current session items:"; "- v1"; "- c1"].
Proof.
  destruct (list_session_items_output TopologicSession_init)
    as (_ & Hempty & _).
  split; [apply Hempty; reflexivity|].
  destruct (list_session_items_output toy_scene) as (_ & _ & Hfull & _).
  assert (Hne : names toy_scene ≠ []) by discriminate.
  destruct (Hfull Hne) as (out & Hout & _ & Hlines).
  exists out. split; [exact Hout|].
  apply Hlines. repeat constructor.
Defined.

Lemma lookups_of_absent_names_witness :
  ("nope" ∉ names toy_scene)
  ∧ get "nope" toy_scene = (Ok VNone, toy_scene)
  ∧ get_object_info "nope" toy_scene =
      (Ok "No object found with the name 'nope'.", toy_scene)
  ∧ get_object_info "c1" toy_scene =
      (Ok "Object 'c1' is of type 'Cell'.", toy_scene)
  ∧ get_object_info "v1" toy_scene =
      (Ok "Object 'v1' is a Vertex located at coordinates [1.0, 2.0, 3.0].",
       toy_scene).
Proof.
  assert (Habs : "nope" ∉ names toy_scene).
  { apply dict_lookup_None. reflexivity. }
  destruct (lookups_of_absent_names toy_scene "nope") as [Hnope _].
  destruct (Hnope Habs) as [Hget Hinfo].
  destruct (lookups_of_absent_names toy_scene "c1") as [_ Hc1].
  destruct (Hc1 (ToyShape "Cell" [] [("name", "c1")]) eq_refl)
    as (_ & Hcell & _).
  destruct (lookups_of_absent_names toy_scene "v1") as [_ Hv1].
  destruct (Hv1 (ToyShape "Vertex" [1; 2; 3] [("name", "v1")]) eq_refl)
    as (_ & _ & Hvertex).
  split_and!; [exact Habs | exact Hget | exact Hinfo | |].
  - apply Hcell. discriminate.
  - exact (Hvertex eq_refl [1; 2; 3] eq_refl).
Defined.
End Executions.


(** * Further properties *)

(** ** A tool that raised *)

Section Unwinding.
Context `{KernelOps} `{UuidSource}.
Implicit Types (w : World) (name : option string).

Lemma untouched_ret {A : Type} (a : A) : untouched (ret a).
Proof. intros w r w'. unfold ret. by intros [= _ <-]. Qed.

Lemma untouched_raise {A : Type} (e : exn) : untouched (raise (A:=A) e).
Proof. intros w r w'. unfold raise. by intros [= _ <-]. Qed.

Lemma untouched_call {A : Type} (r : Res A) : untouched (call r).
Proof. intros w r' w'. unfold call. by intros [= _ <-]. Qed.

Lemma untouched_bind {A B : Type} (m : M A) (k : A → M B) :
  untouched m → (∀ a, untouched (k a)) → untouched (bind m k).
Proof.
  intros Hm Hk w r w'. unfold bind.
  destruct (m w) as [[a|e] w1] eqn:E; apply Hm in E as ->.
  - apply Hk.
  - by intros [= _ <-].
Qed.

Lemma untouched_self_items : untouched self_items.
Proof. intros w r w'. unfold self_items. by intros [= _ <-]. Qed.

Lemma untouched_origin_vertex origin : untouched (origin_vertex origin).
Proof.
  destruct origin; [apply untouched_call | apply untouched_ret].
Qed.

Lemma untouched_unpack position : untouched (unpack position).
Proof.
  destruct position; [apply untouched_ret | apply untouched_raise].
Qed.

Lemma untouched_vertices_of points : untouched (vertices_of points).
Proof.
  induction points as [|p points IH]; simpl; [apply untouched_ret|].
  apply untouched_bind; [apply untouched_call | intros v].
  apply untouched_bind; [apply IH | intros vs; apply untouched_ret].
Qed.

Lemma untouched_assign_name obj n : untouched (assign_name obj n).
Proof.
  unfold assign_name.
  apply untouched_bind; [apply untouched_call | intros config].
  apply untouched_bind; [apply untouched_call | intros o; apply untouched_ret].
Qed.

Lemma untouched_get n : untouched (get n).
Proof.
  unfold get. apply untouched_bind; [apply untouched_self_items|].
  intros d. apply untouched_ret.
Qed.

Lemma untouched_get_all_names : untouched get_all_names.
Proof.
  unfold get_all_names. apply untouched_bind; [apply untouched_self_items|].
  intros d. apply untouched_ret.
Qed.

Lemma untouched_get_object_info n : untouched (get_object_info n).
Proof.
  unfold get_object_info. apply untouched_bind; [apply untouched_get|].
  intros [|o]; [apply untouched_ret|].
  destruct (String.eqb _ _); [|apply untouched_ret].
  apply untouched_bind; [apply untouched_call | intros c; apply untouched_ret].
Qed.

Lemma untouched_list_session_items : untouched list_session_items.
Proof.
  unfold list_session_items.
  apply untouched_bind; [apply untouched_get_all_names|].
  intros [|n ns]; apply untouched_ret.
Qed.

Lemma bind_Raise {A B : Type} (m : M A) (k : A → M B) w e w' :
  bind m k w = (Raise e, w') →
  m w = (Raise e, w') ∨ ∃ a w1, m w = (Ok a, w1) ∧ k a w1 = (Raise e, w').
Proof.
  unfold bind. destruct (m w) as [[a|e0] w1]; [eauto|].
  intros [= -> ->]. by left.
Qed.

Lemma ret_Raise {A : Type} (a : A) w e w' : ret a w = (Raise e, w') → False.
Proof. unfold ret. discriminate. Qed.

Lemma add_Raise n obj w e w' : add n obj w = (Raise e, w') → False.
Proof. unfold add, bind, self_items, set_self_items, ret. discriminate. Qed.

Lemma default_name_Raise kind name w e w' :
  default_name kind name w = (Raise e, w') → False.
Proof.
  destruct name; unfold default_name, bind, uuid4, ret; discriminate.
Qed.

Lemma default_name_after kind name w n w' :
  default_name kind name w = (Ok n, w') → w' = after_naming name w.
Proof.
  destruct name; unfold default_name, bind, uuid4, ret; simpl;
    by intros [= _ <-].
Qed.
End Unwinding.

(** Takes a creation tool that raised apart, call by call. *)
Ltac unwind :=
  repeat match goal with
    | K : bind _ _ _ = (Raise _, _) |- _ =>
        apply bind_Raise in K as [K | (? & ? & ? & K)]
    | K : bind _ _ _ = (Ok _, _) |- _ =>
        apply bind_Ok in K as (? & ? & ? & K)
    | K : ret _ _ = (Raise _, _) |- _ => by apply ret_Raise in K
    | K : add _ _ _ = (Raise _, _) |- _ => by apply add_Raise in K
    | K : default_name _ _ _ = (Raise _, _) |- _ =>
        by apply default_name_Raise in K
    | K : default_name _ _ _ = (Ok _, _) |- _ => apply default_name_after in K
    | K : call _ _ = (_, _) |- _ => apply untouched_call in K
    | K : origin_vertex _ _ = (_, _) |- _ => apply untouched_origin_vertex in K
    | K : unpack _ _ = (_, _) |- _ => apply untouched_unpack in K
    | K : vertices_of _ _ = (_, _) |- _ => apply untouched_vertices_of in K
    | K : assign_name _ _ _ = (_, _) |- _ => apply untouched_assign_name in K
    end.

Section Outcomes.
Context `{KernelOps} `{UuidSource}.
Implicit Types (w : World) (c : ShapeCall) (name : option string).

Lemma create_raised c name w e w' :
  create c name w = (Raise e, w') → w' = w ∨ w' = after_naming name w.
Proof.
  intros Hc. destruct c; cbn [create] in Hc;
    unfold create_cylinder, create_prism, create_circle, create_rectangle,
      create_face, create_wire, create_vertex, create_edge, create_cube in Hc.
  5: destruct (_ <? _)%nat; [by apply ret_Raise in Hc|].
  6: destruct (_ <? _)%nat; [by apply ret_Raise in Hc|].
  all: unwind; subst; auto.
Qed.

Lemma create_rejected c name w :
  precondition c = false →
  ∃ msg, create c name w = (Ok msg, w).
Proof.
  destruct c; cbn [precondition create]; try discriminate;
    unfold create_face, create_wire; rewrite Nat.ltb_antisym;
    intros ->; cbn [negb]; by eexists.
Qed.

(** The three ways a creation tool can leave the world *)
Lemma create_leaves c name w :
  exec (create c name) w = w
  ∨ exec (create c name) w = after_naming name w
  ∨ ∃ obj,
      exec (create c name) w =
        registered (working_name c name w) obj (after_naming name w).
Proof.
  unfold exec. destruct (create c name w) as [[msg|e] w'] eqn:E; simpl.
  - destruct (precondition c) eqn:Hp.
    + destruct (create_returned c name w msg w' Hp E)
        as (shape & config & named & _ & _ & -> & _). eauto.
    + destruct (create_rejected c name w Hp) as [msg' E'].
      rewrite E' in E. injection E as _ <-. by left.
  - destruct (create_raised c name w e w' E); auto.
Qed.
End Outcomes.

(** ** The store under the tools *)

Section StoreExtras.
Context `{KernelOps} `{UuidSource}.
Implicit Types (w : World) (c : ShapeCall) (name : option string).

Lemma keeps_current_messages {A : Type} (m : M A) w :
  keeps_messages m → current_messages (exec m w) = current_messages w.
Proof. intros Hm. unfold current_messages. by destruct (Hm w) as [-> ->]. Qed.

Lemma create_items c name w :
  items (session (exec (create c name) w)) = items (session w)
  ∨ ∃ obj,
      items (session (exec (create c name) w)) =
        dict_setitem (working_name c name w) obj (items (session w)).
Proof.
  destruct (create_leaves c name w) as [-> | [-> | [obj ->]]].
  - by left.
  - left. by destruct name.
  - right. exists obj. by destruct name.
Qed.

Lemma create_draws c name w :
  (draws w ≤ draws (exec (create c name) w))%nat.
Proof.
  destruct (create_leaves c name w) as [-> | [-> | [obj ->]]];
    destruct name; simpl; lia.
Qed.

Lemma step_items op w :
  items (session (step op w)) = items (session w)
  ∨ (∃ n obj, items (session (step op w)) = dict_setitem n obj (items (session w)))
  ∨ (is_clear_session op = true ∧ items (session (step op w)) = []).
Proof.
  destruct op as [n obj| |n|r c| | |t]; cbn [step].
  1: right; left; by exists n, obj.
  1-5: by left.
  destruct t as [c name|n| |]; cbn [invoke].
  - destruct (create_items c name w) as [-> | [obj ->]]; [by left|].
    right. left. eauto.
  - left. unfold exec.
    destruct (get_object_info n w) as [r w'] eqn:E.
    by apply untouched_get_object_info in E as ->.
  - left. unfold exec.
    destruct (list_session_items w) as [r w'] eqn:E.
    by apply untouched_list_session_items in E as ->.
  - right. right. done.
Qed.

Lemma step_draws op w : (draws w ≤ draws (step op w))%nat.
Proof.
  destruct op as [n obj| |n|r c| | |t]; cbn [step];
    try (unfold exec, get_all_names, get, bind, self_items, ret; simpl; lia).
  destruct t as [c name|n| |]; cbn [invoke].
  - apply create_draws.
  - unfold exec. destruct (get_object_info n w) as [r w'] eqn:E.
    apply untouched_get_object_info in E as ->. simpl. lia.
  - unfold exec. destruct (list_session_items w) as [r w'] eqn:E.
    apply untouched_list_session_items in E as ->. simpl. lia.
  - simpl. lia.
Qed.

Lemma run_draws ops w : (draws w ≤ draws (run ops w))%nat.
Proof.
  revert w. induction ops as [|op ops IH]; intros w; simpl; [lia|].
  pose proof (step_draws op w). pose proof (IH (step op w)). lia.
Qed.

(** X1: no tool reads or writes the chat history: whatever a tool call
    returns or raises, the list objects, the [messages] reference and so the
    chat history are what they were. *)
Theorem tools_keep_chat_history (t : ToolCall) w :
  heap (exec (invoke t) w) = heap w
  ∧ messages (session (exec (invoke t) w)) = messages (session w)
  ∧ current_messages (exec (invoke t) w) = current_messages w.
Proof.
  pose proof (keeps_invoke t) as Ht. destruct (Ht w) as [Hh Hm].
  split_and!; [done | done | by apply keeps_current_messages].
Qed.

(** X2: looking things up changes nothing, also when it raises.
    [list_session_items] always returns; [get_object_info] raises only what
    [Vertex.Coordinates] raises on a stored object whose type name is
    "Vertex". *)
Theorem inspection_is_read_only w (n : string) :
  exec (get n) w = w
  ∧ exec get_all_names w = w
  ∧ exec list_session_items w = w
  ∧ exec (get_object_info n) w = w
  ∧ (∃ out, result list_session_items w = Ok out)
  ∧ (∀ e, result (get_object_info n) w = Raise e →
       ∃ o, dict_lookup n (items (session w)) = Some (VObj o)
            ∧ type_name o = "Vertex"
            ∧ Vertex_Coordinates o = Raise e).
Proof.
  split_and!; try done.
  - unfold exec. destruct (list_session_items w) as [r w'] eqn:E.
    by apply untouched_list_session_items in E as ->.
  - unfold exec. destruct (get_object_info n w) as [r w'] eqn:E.
    by apply untouched_get_object_info in E as ->.
  - unfold result, list_session_items, get_all_names, bind, self_items, ret.
    simpl. destruct (dict_keys _); by eexists.
  - intros e. unfold result, get_object_info, get, bind, self_items, ret, call.
    simpl. destruct (dict_lookup n (items (session w))) as [[|o]|] eqn:E;
      simpl; try discriminate.
    destruct (String.eqb (type_name o) "Vertex") eqn:Ety; [|discriminate].
    destruct (Vertex_Coordinates o) as [coords|e'] eqn:Eco; simpl;
      [discriminate|].
    intros [= ->]. exists o. split_and!; [done | by apply String.eqb_eq | done].
Qed.

(** X3: a creation tool that raises has registered nothing: the session
    and the list objects are what they were.  At most the token for an
    omitted name has been drawn; with a name given the world is the same. *)
Theorem failed_creation_registers_nothing c name w e w' :
  create c name w = (Raise e, w') →
  session w' = session w
  ∧ heap w' = heap w
  ∧ (w' = w ∨ (name = None ∧ draws w' = S (draws w))).
Proof.
  intros [-> | ->]%create_raised; [by auto|].
  destruct name; simpl; auto.
Qed.

(** X4: [create_vertex] with [None] for the position raises a [TypeError]
    at the unpacking, whatever the kernel is, after the name has been
    settled: nothing is registered, and the token of an omitted name is
    used up. *)
Theorem create_vertex_without_position_raises name w :
  ∃ msg,
    create_vertex None name w = (Raise (TypeError msg), after_naming name w)
    ∧ session (after_naming name w) = session w.
Proof.
  eexists. destruct name; split; reflexivity.
Qed.

(** X5: until [clear_session] is called the list of names only grows at
    its end: whatever methods and tools run, the names that were there stay
    in front in their order, and each operation adds at most one name. *)
Theorem names_grow_at_the_end (ops : list Op) w :
  Forall (λ op, is_clear_session op = false) ops →
  names w `prefix_of` names (run ops w)
  ∧ (length (names (run ops w)) ≤ length (names w) + length ops)%nat.
Proof.
  intros Hops. revert w.
  induction Hops as [|op ops Hop Hops IH]; intros w; simpl.
  - split; [done | lia].
  - destruct (IH (step op w)) as [Hpre Hlen].
    assert (Hstep : names w `prefix_of` names (step op w)
                    ∧ (length (names (step op w)) ≤ S (length (names w)))%nat).
    { unfold names.
      destruct (step_items op w) as [-> | [(n & obj & ->) | [Hc _]]].
      - split; [done | lia].
      - rewrite dict_keys_setitem. destruct (decide _).
        + split; [done | lia].
        + split; [by apply prefix_app_r|]. rewrite length_app. simpl. lia.
      - congruence. }
    destruct Hstep as [Hpre1 Hlen1]. split; [by etrans | lia].
Qed.

(** X6: the store never lists a name twice: whatever methods and tools
    run, [clear_session] included, the names stay pairwise different. *)
Theorem names_stay_distinct (ops : list Op) w :
  NoDup (names w) → NoDup (names (run ops w)).
Proof.
  revert w. induction ops as [|op ops IH]; intros w Hw; simpl; [done|].
  apply IH. unfold names in *.
  destruct (step_items op w) as [-> | [(n & obj & ->) | [_ ->]]].
  - done.
  - by apply dict_keys_NoDup.
  - constructor.
Qed.

(** X7: after [clear_session] every lookup misses and the listing is the
    one of an empty store; the count of drawn tokens is not reset. *)
Theorem after_clear_session_nothing_is_found w (n : string) :
  get n (exec clear_session w) = (Ok VNone, exec clear_session w)
  ∧ get_object_info n (exec clear_session w) =
      (Ok ("No object found with the name '" +:+ n +:+ "'."),
       exec clear_session w)
  ∧ list_session_items (exec clear_session w) =
      (Ok "The session is empty.", exec clear_session w)
  ∧ draws (exec clear_session w) = draws w.
Proof. split_and!; reflexivity. Qed.

(** X10: a creation tool stores whatever the kernel hands back.  When that
    is [None] the tool still confirms the creation and the name is listed,
    but [get_object_info] and [get] answer as for a name that is not
    there. *)
Theorem created_None_reads_as_not_found c name w msg w' :
  precondition c = true →
  create c name w = (Ok msg, w') →
  dict_lookup (working_name c name w) (items (session w')) = Some VNone →
  msg = created (shape_article c) (shape_kind c) (working_name c name w)
  ∧ working_name c name w ∈ names w'
  ∧ (∃ out, result list_session_items w' = Ok out
            ∧ out ≠ "The session is empty.")
  ∧ get (working_name c name w) w' = (Ok VNone, w')
  ∧ get_object_info (working_name c name w) w' =
      (Ok ("No object found with the name '"
             +:+ working_name c name w +:+ "'."), w').
Proof.
  intros Hp Hc Hnone.
  destruct (create_returned c name w msg w' Hp Hc)
    as (shape & config & named & _ & _ & Hw' & ->).
  assert (Hin : working_name c name w ∈ names w').
  { apply dict_lookup_Some. rewrite Hnone. by eexists. }
  split_and!; [done | done | | |].
  - unfold result, list_session_items, get_all_names, bind, self_items, ret.
    simpl. unfold names in Hin. destruct (dict_keys (items (session w'))).
    + by apply elem_of_nil in Hin.
    + eexists. split; [done|]. cbv beta iota delta [String.append].
      discriminate.
  - unfold get, bind, self_items, ret. by rewrite Hnone.
  - unfold get_object_info, get, bind, self_items, ret. by rewrite Hnone.
Qed.
End StoreExtras.

(** ** Synthesized names over a run *)

Section SynthesizedNames.
Context `{KernelOps} `{UuidSource}.
Implicit Types (w : World) (c : ShapeCall).

(** What a creation tool called without a name has done when it returns:
    it read the draw the world was at, registered under the name made from
    that token, quoted that name, and left the world one draw further. *)
Lemma unnamed_creation_returned c w msg w' :
  precondition c = true →
  create c None w = (Ok msg, w') →
  msg = created (shape_article c) (shape_kind c)
          (shape_kind c +:+ " " +:+ uuid4_str (draws w))
  ∧ shape_kind c +:+ " " +:+ uuid4_str (draws w) ∈ names w'
  ∧ draws w' = S (draws w).
Proof.
  intros Hp Hc.
  destruct (create_returned c None w msg w' Hp Hc)
    as (shape & config & named & _ & _ & -> & ->).
  split_and!; [done | | done].
  apply dict_lookup_Some. unfold registered. simpl.
  rewrite dict_lookup_setitem_eq. by eexists.
Qed.

(** C4: a creation tool called without a name registers its shape under
    "<kind> <token>", the token being what [uuid4] gave for the draw the
    call made, and quotes that name.  With tokens that are unique (no two
    draws of [uuid4] give the same token), two such calls in one run,
    whatever is done in between, never produce the same name. *)
Theorem synthesized_names_never_collide
    c1 c2 w1 m1 w1' (ops : list Op) m2 w2' :
  (∀ i j, uuid4_str i = uuid4_str j → i = j) →
  precondition c1 = true →
  precondition c2 = true →
  create c1 None w1 = (Ok m1, w1') →
  create c2 None (run ops w1') = (Ok m2, w2') →
  let n1 := shape_kind c1 +:+ " " +:+ uuid4_str (draws w1) in
  let n2 := shape_kind c2 +:+ " " +:+ uuid4_str (draws (run ops w1')) in
  (n1 ∈ names w1' ∧ m1 = created (shape_article c1) (shape_kind c1) n1)
  ∧ (n2 ∈ names w2' ∧ m2 = created (shape_article c2) (shape_kind c2) n2)
  ∧ n1 ≠ n2.
Proof.
  intros Huniq Hp1 Hp2 Hc1 Hc2 n1 n2.
  destruct (unnamed_creation_returned c1 w1 m1 w1' Hp1 Hc1) as (Hm1 & Hn1 & Hd1).
  destruct (unnamed_creation_returned c2 _ m2 w2' Hp2 Hc2) as (Hm2 & Hn2 & _).
  split_and!; try done.
  intros [_ Ht%Huniq]%synthesized_name_inj.
  pose proof (run_draws ops w1') as Hr. lia.
Qed.

(** X9: two creation calls without a name in one run read different draws
    of [uuid4]: the first registers and quotes the name made from the token
    of the draw the run was at, the later one, whatever is done in between,
    the name made from the token of a later draw.  So two synthesized names
    of a run can only be the same if [uuid4] gives the same token for two
    different draws. *)
Theorem unnamed_creations_read_different_draws
    c1 c2 w1 m1 w1' (ops : list Op) m2 w2' :
  precondition c1 = true →
  precondition c2 = true →
  create c1 None w1 = (Ok m1, w1') →
  create c2 None (run ops w1') = (Ok m2, w2') →
  ∃ i j,
    i < j
    ∧ m1 = created (shape_article c1) (shape_kind c1)
             (shape_kind c1 +:+ " " +:+ uuid4_str i)
    ∧ shape_kind c1 +:+ " " +:+ uuid4_str i ∈ names w1'
    ∧ m2 = created (shape_article c2) (shape_kind c2)
             (shape_kind c2 +:+ " " +:+ uuid4_str j)
    ∧ shape_kind c2 +:+ " " +:+ uuid4_str j ∈ names w2'
    ∧ (shape_kind c1 +:+ " " +:+ uuid4_str i
       = shape_kind c2 +:+ " " +:+ uuid4_str j →
       uuid4_str i = uuid4_str j).
Proof.
  intros Hp1 Hp2 Hc1 Hc2.
  destruct (unnamed_creation_returned c1 w1 m1 w1' Hp1 Hc1) as (Hm1 & Hn1 & Hd1).
  destruct (unnamed_creation_returned c2 _ m2 w2' Hp2 Hc2) as (Hm2 & Hn2 & _).
  exists (draws w1), (draws (run ops w1')).
  split_and!; try done.
  - pose proof (run_draws ops w1') as Hr. lia.
  - by intros [_ Ht]%synthesized_name_inj.
Qed.
End SynthesizedNames.

(** ** The chat history under the methods *)

Section ChatExtras.
Context `{KernelOps} `{UuidSource}.
Implicit Types (w : World) (h : list ChatTurn).

Lemma add_message_current w r c :
  wf w →
  current_messages (exec (add_message r c) w) =
    current_messages w ++ [mkTurn r c].
Proof.
  intros Hw. destruct (lookup_lt_is_Some_2 _ _ Hw) as [l Hl].
  unfold current_messages. rewrite Hl.
  unfold exec, add_message, bind, self_messages, list_append, ret.
  cbn [snd heap with_heap session messages].
  rewrite list_lookup_alter_eq, Hl. done.
Qed.

Lemma get_messages_current w :
  wf w → current_messages (exec get_messages w) = current_messages w.
Proof.
  intros Hw. unfold current_messages, exec, get_messages, bind,
    self_messages, read_list, new_list. simpl. by rewrite lookup_app_l.
Qed.

Lemma clear_messages_current w : current_messages (exec clear_messages w) = [].
Proof.
  unfold current_messages, exec, clear_messages, bind, new_list,
    set_self_messages, ret. simpl. by rewrite list_lookup_middle.
Qed.

Lemma step_history op w :
  wf w →
  current_messages (step op w) = history_after [op] (current_messages w).
Proof.
  intros Hw. destruct op as [n obj| |n|r c| | |t]; cbn [step history_after].
  - apply keeps_current_messages, keeps_add.
  - apply keeps_current_messages, keeps_get_all_names.
  - apply keeps_current_messages, keeps_get.
  - by apply add_message_current.
  - by apply get_messages_current.
  - apply clear_messages_current.
  - apply keeps_current_messages, keeps_invoke.
Qed.

Lemma history_after_app ops1 ops2 h :
  history_after (ops1 ++ ops2) h = history_after ops2 (history_after ops1 h).
Proof.
  revert h. induction ops1 as [|op ops1 IH]; intros h; [done|].
  destruct op; simpl; apply IH.
Qed.

Lemma run_app ops1 ops2 w : run (ops1 ++ ops2) w = run ops2 (run ops1 w).
Proof. revert w. induction ops1 as [|op ops1 IH]; intros w; simpl; auto. Qed.

Lemma run_history_after ops w :
  wf w → current_messages (run ops w) = history_after ops (current_messages w).
Proof.
  revert w. induction ops as [|op ops IH]; intros w Hw; [done|].
  change (run (op :: ops) w) with (run ops (step op w)).
  rewrite IH by by apply step_wf.
  rewrite step_history by done. by destruct op.
Qed.

Lemma history_after_invokes (ts : list ToolCall) h :
  history_after (map OpInvoke ts) h = h.
Proof. induction ts as [|t ts IH]; simpl; auto. Qed.

Lemma history_after_add_messages (turns : list ChatTurn) h :
  history_after (add_messages turns) h = h ++ turns.
Proof.
  revert h. induction turns as [|[r c] turns IH]; intros h; simpl.
  - by rewrite app_nil_r.
  - rewrite IH, <-app_assoc. done.
Qed.

(** X8: in a session reached from a new one, the chat history after any
    sequence of methods and tool calls is settled by the [add_message] and
    [clear_messages] calls in it alone: each [add_message] puts its turn at
    the end, each [clear_messages] empties it, nothing else touches it.  So
    a sequence of [add_message] calls appends its turns in order, and the
    items are not affected. *)
Theorem chat_history_is_append_only (ops : list Op) (turns : list ChatTurn) w :
  wf w →
  current_messages (run ops w) = history_after ops (current_messages w)
  ∧ current_messages (run (add_messages turns) w) = current_messages w ++ turns
  ∧ items (session (run (add_messages turns) w)) = items (session w).
Proof.
  intros Hw. split_and!.
  - by apply run_history_after.
  - rewrite run_history_after by done. apply history_after_add_messages.
  - clear Hw. revert w. induction turns as [|t turns IH]; intros w; [done|].
    simpl. by rewrite IH.
Qed.
End ChatExtras.

(** ** The script *)

Section ScriptFacts.
Context `{KernelOps} `{UuidSource}.
Implicit Types (w : World) (app : App) (agent : AgentStream).

Lemma on_step_pieces step data text0 text :
  on_step step data text0 = Done text →
  text = default text0 (last (step_pieces step data)).
Proof.
  unfold on_step, step_pieces.
  destruct (last_content data) as [content|e]; [|discriminate].
  destruct (String.eqb step "model"); [|by intros [= <-]].
  destruct (piece_of content) as [p|e]; [|discriminate]. by intros [= <-].
Qed.

Lemma on_chunk_pieces (chunk : Chunk) text0 text :
  on_chunk chunk text0 = Done text →
  text = default text0
           (last (flat_map (λ '(step, data), step_pieces step data) chunk)).
Proof.
  revert text0. induction chunk as [|[step data] chunk IH]; intros text0; simpl.
  - by intros [= <-].
  - destruct (on_step step data text0) as [text1|e] eqn:E; [|discriminate].
    intros ->%IH. apply on_step_pieces in E as ->.
    rewrite last_app. by destruct (last (flat_map _ chunk)).
Qed.

Lemma consume_pieces agent text0 w text w' :
  consume agent text0 w = (Done text, w') →
  text = default text0 (last (stream_pieces agent)).
Proof.
  revert text0 w. induction agent as [| |t rest IH|chunk rest IH];
    intros text0 w; simpl.
  - by intros [= <- _].
  - discriminate.
  - apply IH.
  - destruct (on_chunk chunk text0) as [text1|e] eqn:E; [|discriminate].
    intros ->%IH. apply on_chunk_pieces in E as ->.
    rewrite last_app. by destruct (last (stream_pieces rest)).
Qed.

Lemma on_step_not_Raised step data text0 x :
  on_step step data text0 ≠ Crashed (Raised x).
Proof.
  unfold on_step, last_content, piece_of, block_item.
  repeat case_match; intros Heq; simplify_eq.
Qed.

Lemma on_chunk_not_Raised (chunk : Chunk) text0 x :
  on_chunk chunk text0 ≠ Crashed (Raised x).
Proof.
  revert text0. induction chunk as [|[step data] chunk IH]; intros text0;
    simpl; [intros Heq; discriminate Heq|].
  destruct (on_step step data text0) as [text1|e] eqn:E; [apply IH|].
  intros Heq. injection Heq as ->. by eapply on_step_not_Raised.
Qed.

Lemma consume_as_run agent text0 w o w' :
  consume agent text0 w = (o, w') →
  (∃ ts : list ToolCall, w' = run (map OpInvoke ts) w)
  ∧ (∀ x, o ≠ Crashed (Raised x)).
Proof.
  revert text0 w. induction agent as [| |t rest IH|chunk rest IH];
    intros text0 w; simpl.
  - intros [= <- <-]. split; [by exists [] | done].
  - intros [= <- <-]. split; [by exists [] | done].
  - intros [[ts ->] Ho]%IH. split; [by exists (t :: ts) | done].
  - destruct (on_chunk chunk text0) as [text1|e] eqn:E.
    + apply IH.
    + intros [= <- <-]. split; [by exists []|].
      intros x Heq. injection Heq as ->. by eapply on_chunk_not_Raised.
Qed.

(** How a run of the handler went: where the agent's loop left the world,
    and what was done after it. *)
Lemma on_prompt_shape prompt agent app o app' :
  on_prompt prompt agent app = (o, app') →
  let w1 := exec (add_message "user" prompt) (world app) in
  let w2 := exec get_messages w1 in
  let w3 := exec get_messages w2 in
  ∃ ts : list ToolCall,
    let w4 := run (map OpInvoke ts) w3 in
    messages_for_agent app' = Some (length (heap w2))
    ∧ ((∃ e, o = Crashed e ∧ (∀ x, e ≠ Raised x)
             ∧ world app' = w4 ∧ ui_messages app' = Some (length (heap w1)))
       ∨ (o = Done tt ∧ default "" (last (stream_pieces agent)) = ""
          ∧ world app' = w4 ∧ ui_messages app' = Some (length (heap w1)))
       ∨ (∃ text,
            o = Done tt ∧ default "" (last (stream_pieces agent)) = text
            ∧ text ≠ ""
            ∧ world app' =
                exec get_messages (exec (add_message "assistant" text) w4)
            ∧ ui_messages app' =
                Some (length (heap (exec (add_message "assistant" text) w4))))).
Proof.
  intros Hrun w1 w2 w3.
  unfold on_prompt, sbind, in_session, set_ui_messages,
    set_messages_for_agent, stream_loop, sret in Hrun.
  cbn [add_message get_messages bind self_messages list_append read_list
       new_list ret world ui_messages messages_for_agent] in Hrun.
  change (consume agent "" _) with (consume agent "" w3) in Hrun.
  destruct (consume agent "" w3) as [[text|e] w4] eqn:E.
  - destruct (consume_as_run _ _ _ _ _ E) as [[ts Hw4] _].
    apply consume_pieces in E as Htext. exists ts.
    destruct (String.eqb text "") eqn:Et.
    + apply String.eqb_eq in Et. injection Hrun as <- <-.
      split; [done|]. right. left. subst text. done.
    + apply String.eqb_neq in Et.
      cbn [add_message get_messages bind self_messages list_append read_list
           new_list ret world ui_messages messages_for_agent] in Hrun.
      injection Hrun as <- <-. split; [done|].
      right. right. exists text. rewrite <-Hw4. done.
  - destruct (consume_as_run _ _ _ _ _ E) as [[ts Hw4] He].
    exists ts. injection Hrun as <- <-. split; [done|].
    left. exists e. split_and!; try done. intros x ->. by eapply He.
Qed.
End ScriptFacts.

Section ScriptExtras.
Context `{KernelOps} `{UuidSource}.
Implicit Types (w : World) (app : App) (agent : AgentStream).

Lemma get_messages_detached w :
  wf w →
  detached (length (heap w)) (exec get_messages w)
  ∧ heap (exec get_messages w) !! length (heap w) = Some (current_messages w)
  ∧ length (heap (exec get_messages w)) = S (length (heap w)).
Proof.
  intros Hw. unfold detached, wf, exec, get_messages, bind, self_messages,
    read_list, new_list in *. simpl.
  rewrite length_app, list_lookup_middle by done. simpl.
  split_and!; [lia | lia | done | lia].
Qed.

(** The worlds a run of the handler goes through before the agent's loop *)
Lemma before_the_loop prompt w :
  wf w →
  let w1 := exec (add_message "user" prompt) w in
  let w2 := exec get_messages w1 in
  let w3 := exec get_messages w2 in
  wf w1 ∧ wf w2 ∧ wf w3
  ∧ current_messages w1 = current_messages w ++ [mkTurn "user" prompt]
  ∧ current_messages w3 = current_messages w ++ [mkTurn "user" prompt]
  ∧ detached (length (heap w1)) w3
  ∧ heap w3 !! length (heap w1) = Some (current_messages w1)
  ∧ detached (length (heap w2)) w3
  ∧ heap w3 !! length (heap w2) = Some (current_messages w1)
  ∧ length (heap w2) = S (length (heap w1)).
Proof using All.
  intros Hw w1 w2 w3.
  assert (Hw1 : wf w1) by apply (step_wf (OpAddMessage "user" prompt) w Hw).
  assert (Hw2 : wf w2) by apply (step_wf OpGetMessages w1 Hw1).
  assert (Hw3 : wf w3) by apply (step_wf OpGetMessages w2 Hw2).
  assert (Hc1 : current_messages w1 = current_messages w ++ [mkTurn "user" prompt])
    by by apply add_message_current.
  assert (Hc2 : current_messages w2 = current_messages w1)
    by by apply get_messages_current.
  destruct (get_messages_detached w1 Hw1) as (Hd1 & Hl1 & Hn1).
  destruct (get_messages_detached w2 Hw2) as (Hd2 & Hl2 & Hn2).
  destruct (step_detached OpGetMessages _ _ Hd1) as [Hd1' Hl1'].
  split_and!; try done.
  - etrans; [apply (get_messages_current w2 Hw2)|]. by rewrite Hc2.
  - etrans; [exact Hl1' | exact Hl1].
  - etrans; [exact Hl2 | by rewrite Hc2].
Qed.

Lemma after_the_tools (ts : list ToolCall) w :
  wf w →
  wf (run (map OpInvoke ts) w)
  ∧ current_messages (run (map OpInvoke ts) w) = current_messages w.
Proof.
  intros Hw. split; [by apply run_wf|].
  by rewrite run_history_after, history_after_invokes.
Qed.

(** X11: a prompt whose handling runs to its end puts the user's turn at
    the end of the chat history and after it at most one assistant turn:
    the piece of the last "model" step of the agent's run, when that piece
    is not empty.  Pieces of earlier steps, the tool-call notes among them,
    are not stored, and steps other than "model" give no piece. *)
Theorem prompt_stores_the_last_piece prompt agent app app' :
  wf (world app) →
  on_prompt prompt agent app = (Done tt, app') →
  let said := default "" (last (stream_pieces agent)) in
  current_messages (world app') =
    current_messages (world app) ++
      mkTurn "user" prompt ::
      (if String.eqb said "" then [] else [mkTurn "assistant" said]).
Proof.
  intros Hw Hrun said.
  destruct (before_the_loop prompt (world app) Hw)
    as (_ & _ & Hw3 & _ & Hc3 & _).
  destruct (on_prompt_shape _ _ _ _ _ Hrun) as (ts & _ & Hcases).
  destruct (after_the_tools ts _ Hw3) as [Hw4 Hc4].
  destruct Hcases as [(e & He & _) | [(_ & Hs & -> & _) | (text & _ & Hs & Ht & -> & _)]].
  - discriminate.
  - fold said in Hs. rewrite Hs, Hc4, Hc3. done.
  - fold said in Hs. rewrite Hs.
    apply String.eqb_neq in Ht as ->.
    rewrite get_messages_current
      by apply (step_wf (OpAddMessage "assistant" text) _ Hw4).
    rewrite add_message_current, Hc4, Hc3, <-app_assoc by done. done.
Qed.

(** X12: when the handling of a prompt breaks off (the agent raises, an
    update has no "messages", a last message has no content block, a block
    lacks the key read from it), the user's turn is in the chat history
    and no assistant turn is; the session methods are not what raised. *)
Theorem crashed_prompt_keeps_the_user_turn prompt agent app e app' :
  wf (world app) →
  on_prompt prompt agent app = (Crashed e, app') →
  current_messages (world app') =
    current_messages (world app) ++ [mkTurn "user" prompt]
  ∧ (e = IndexError ∨ e = AgentError ∨ ∃ key, e = KeyError key).
Proof.
  intros Hw Hrun.
  destruct (before_the_loop prompt (world app) Hw)
    as (_ & _ & Hw3 & _ & Hc3 & _).
  destruct (on_prompt_shape _ _ _ _ _ Hrun) as (ts & _ & Hcases).
  destruct (after_the_tools ts _ Hw3) as [Hw4 Hc4].
  destruct Hcases as [(e' & He & Hne & -> & _) | [(He & _) | (text & He & _)]];
    try discriminate.
  injection He as <-. split; [by rewrite Hc4, Hc3|].
  destruct e as [| key | | x]; eauto. by destruct (Hne x).
Qed.

(** X14: the list handed to the agent holds the chat history with the new
    prompt at its end, and still does when the handling is over, however it
    ends: the assistant turn stored afterwards is not in it.  It is neither
    the session's own list nor the one the chat column shows. *)
Theorem agent_receives_the_history_with_the_prompt prompt agent app :
  wf (world app) →
  ∃ r,
    messages_for_agent (snd (on_prompt prompt agent app)) = Some r
    ∧ heap (world (snd (on_prompt prompt agent app))) !! r =
        Some (current_messages (world app) ++ [mkTurn "user" prompt])
    ∧ messages (session (world (snd (on_prompt prompt agent app)))) ≠ r
    ∧ ui_messages (snd (on_prompt prompt agent app)) ≠ Some r.
Proof.
  intros Hw.
  destruct (on_prompt prompt agent app) as [o app'] eqn:Hrun. simpl.
  destruct (before_the_loop prompt (world app) Hw)
    as (_ & _ & Hw3 & Hc1 & _ & _ & _ & Hd & Hl & Hn).
  destruct (on_prompt_shape _ _ _ _ _ Hrun) as (ts & Hfor & Hcases).
  eexists. split; [exact Hfor|]. rewrite <-Hc1.
  destruct (run_detached (map OpInvoke ts) _ _ Hd) as [Hd4 Hl4].
  destruct Hcases as [(e' & _ & _ & -> & ->) | [(_ & _ & -> & ->)
                     | (text & _ & _ & _ & -> & ->)]].
  - rewrite Hl4, Hl. destruct Hd4 as [_ Hm]. split_and!; [done | done |].
    intros Heq%(inj Some). lia.
  - rewrite Hl4, Hl. destruct Hd4 as [_ Hm]. split_and!; [done | done |].
    intros Heq%(inj Some). lia.
  - destruct (step_detached (OpAddMessage "assistant" text) _ _ Hd4)
      as [Hd5 Hl5].
    destruct (step_detached OpGetMessages _ _ Hd5) as [[_ Hm6] Hl6].
    cbn [step] in *. rewrite Hl6, Hl5, Hl4, Hl. split_and!; [done | done |].
    intros Heq%(inj Some). destruct Hd5 as [Hlt _]. cbn [step] in Hlt. lia.
Qed.

Lemma script_run_synced ev app :
  wf (world app) →
  ui_messages app = None ∨ transcript app = current_messages (world app) →
  wf (world (snd (script_run ev app)))
  ∧ transcript (snd (script_run ev app)) =
      current_messages (world (snd (script_run ev app))).
Proof.
  intros Hw Hsync.
  assert (Hinit : wf (world (snd (init_ui_messages app)))
                  ∧ transcript (snd (init_ui_messages app)) =
                      current_messages (world (snd (init_ui_messages app)))
                  ∧ fst (init_ui_messages app) = Done tt).
  { unfold init_ui_messages.
    destruct (ui_messages app) as [r|] eqn:Eui.
    - destruct Hsync as [|Hsync]; [done|]. done.
    - unfold sbind, in_session, set_ui_messages.
      cbn [get_messages bind self_messages read_list new_list fst snd world].
      destruct (get_messages_detached (world app) Hw) as (_ & Hl & _).
      split_and!; [apply (step_wf OpGetMessages _ Hw) | | done].
      unfold transcript. cbn [ui_messages world].
      change (with_heap _ (world app)) with (exec get_messages (world app)).
      rewrite Hl. symmetry. by apply get_messages_current. }
  destruct ev as [| |text agent]; cbn [script_run].
  - by destruct Hinit as (? & ? & _).
  - unfold on_clear_chat, sbind, in_session, set_ui_messages, transcript,
      current_messages, wf.
    cbn [new_list set_self_messages fst snd world ui_messages heap session
         messages with_heap with_session].
    rewrite !length_app. simpl. split; [lia|].
    rewrite (list_lookup_middle (heap (world app) ++ [[]]) [] []
               (length (heap (world app)) + 1))
      by (rewrite length_app; simpl; lia).
    rewrite (lookup_app_l (heap (world app) ++ [[]]) [[]])
      by (rewrite length_app; simpl; lia).
    by rewrite (list_lookup_middle (heap (world app)) [] [] _ eq_refl).
  - destruct Hinit as (Hw0 & Hs0 & Hdone). unfold sbind.
    destruct (init_ui_messages app) as [o0 app0]. simpl in Hw0, Hs0, Hdone.
    subst o0. destruct (String.eqb text ""); [done|].
    destruct (on_prompt text agent app0) as [o app'] eqn:Hrun. simpl.
    destruct (before_the_loop text (world app0) Hw0)
      as (Hw1 & _ & Hw3 & _ & Hc3 & Hd & Hl & _).
    destruct (on_prompt_shape _ _ _ _ _ Hrun) as (ts & _ & Hcases).
    destruct (after_the_tools ts _ Hw3) as [Hw4 Hc4].
    destruct (run_detached (map OpInvoke ts) _ _ Hd) as [_ Hl4].
    assert (Hc1 : current_messages (exec (add_message "user" text) (world app0))
                  = current_messages (world app0) ++ [mkTurn "user" text])
      by by apply add_message_current.
    destruct Hcases as [(e' & _ & _ & Hwd & Hui) | [(_ & _ & Hwd & Hui)
                       | (said & _ & _ & _ & Hwd & Hui)]].
    + unfold transcript. rewrite Hui, Hwd. split; [done|].
      rewrite Hl4, Hl, Hc4, Hc3, Hc1. done.
    + unfold transcript. rewrite Hui, Hwd. split; [done|].
      rewrite Hl4, Hl, Hc4, Hc3, Hc1. done.
    + pose proof (step_wf (OpAddMessage "assistant" said) _ Hw4) as Hw5.
      cbn [step] in Hw5.
      destruct (get_messages_detached _ Hw5) as (_ & Hl6 & _).
      unfold transcript. rewrite Hui, Hwd.
      split; [apply (step_wf OpGetMessages _ Hw5)|].
      rewrite Hl6. symmetry. by apply get_messages_current.
Qed.

(** X13: whatever the user does (loads, prompts that run to their end or
    break off, clearing the chat), after every run of the script the chat
    column shows the chat history of the session: the list kept in
    [st.session_state.messages] holds the turns [session.messages] holds. *)
Theorem transcript_follows_the_history (evs : list Event) :
  transcript (script_runs evs App_init) =
    current_messages (world (script_runs evs App_init))
  ∧ wf (world (script_runs evs App_init)).
Proof.
  assert (Hgen : ∀ app,
    wf (world app) →
    ui_messages app = None ∨ transcript app = current_messages (world app) →
    transcript app = current_messages (world app) →
    transcript (script_runs evs app) =
      current_messages (world (script_runs evs app))
    ∧ wf (world (script_runs evs app))).
  { induction evs as [|ev evs IH]; intros app Hw Hor Hnow; [done|].
    simpl. destruct (script_run_synced ev app Hw Hor) as [Hw' Hs'].
    apply IH; auto. }
  apply Hgen; [apply wf_init | by left | done].
Qed.
End ScriptExtras.

(** ** The counting tokens are unique *)

Section CountingTokens.
Lemma append_inj_l (p a b : string) : p +:+ a = p +:+ b → a = b.
Proof.
  induction p as [|x p IH]; [done|].
  rewrite !append_cons. intros [= Heq]. by apply IH.
Qed.

Lemma numeral_zero (s : string) : numeral (String "0" s) = numeral s.
Proof.
  unfold numeral. simpl. by destruct (NilEmpty.uint_of_string s).
Qed.

Lemma numeral_zeros (k : nat) (s : string) :
  numeral (String.concat "" (replicate k "0") +:+ s) = numeral s.
Proof.
  induction k as [|k IH]; [done|].
  destruct k as [|k].
  - apply numeral_zero.
  - change (String.concat "" (replicate (S (S k)) "0") +:+ s)
      with (String "0" (String.concat "" (replicate (S k) "0") +:+ s)).
    by rewrite numeral_zero.
Qed.

Lemma numeral_digits (n : nat) :
  numeral (NilZero.string_of_uint (Nat.to_uint n)) = Some n.
Proof.
  pose proof (DecimalNat.Unsigned.of_to n) as Hn.
  unfold numeral, NilZero.string_of_uint.
  destruct (Nat.to_uint n) eqn:E;
    try (rewrite NilEmpty.usu; simpl; by rewrite Hn).
  simpl in *. by rewrite <-Hn.
Qed.

Lemma counting_uuids_unique (i j : nat) :
  @uuid4_str counting_uuids i = @uuid4_str counting_uuids j → i = j.
Proof.
  unfold uuid4_str, counting_uuids.
  intros Heq%append_inj_l. apply (f_equal numeral) in Heq.
  rewrite !numeral_zeros, !numeral_digits in Heq. by injection Heq.
Qed.
End CountingTokens.

(** ** More of the tools and the script at work *)

Section MoreExecutions.
#[local] Existing Instances toy_kernel toy_ops counting_uuids.

Lemma synthesized_names_witness :
  (∀ i j, uuid4_str i = uuid4_str j → i = j)
  ∧ precondition (CreateCylinder 1 2) = true
  ∧ precondition (CreateCylinder 3 4) = true
  ∧ create (CreateCylinder 1 2) None toy_scene =
      (Ok "A cylinder with name cylinder 00000000-0000-4000-8000-000000000000 has been created and registered",
       exec (create (CreateCylinder 1 2) None) toy_scene)
  ∧ create (CreateCylinder 3 4) None
      (run toy_busy (exec (create (CreateCylinder 1 2) None) toy_scene)) =
      (Ok "A cylinder with name cylinder 00000000-0000-4000-8000-000000000002 has been created and registered",
       exec (create (CreateCylinder 3 4) None)
         (run toy_busy (exec (create (CreateCylinder 1 2) None) toy_scene)))
  ∧ "cylinder 00000000-0000-4000-8000-000000000000"
    ≠ "cylinder 00000000-0000-4000-8000-000000000002".
Proof.
  assert (Hu : ∀ i j, uuid4_str i = uuid4_str j → i = j)
    by exact counting_uuids_unique.
  assert (Hp1 : precondition (CreateCylinder 1 2) = true) by reflexivity.
  assert (Hp2 : precondition (CreateCylinder 3 4) = true) by reflexivity.
  assert (Hc1 : create (CreateCylinder 1 2) None toy_scene =
      (Ok "A cylinder with name cylinder 00000000-0000-4000-8000-000000000000 has been created and registered",
       exec (create (CreateCylinder 1 2) None) toy_scene)) by reflexivity.
  assert (Hc2 : create (CreateCylinder 3 4) None
      (run toy_busy (exec (create (CreateCylinder 1 2) None) toy_scene)) =
      (Ok "A cylinder with name cylinder 00000000-0000-4000-8000-000000000002 has been created and registered",
       exec (create (CreateCylinder 3 4) None)
         (run toy_busy (exec (create (CreateCylinder 1 2) None) toy_scene))))
    by reflexivity.
  destruct (synthesized_names_never_collide _ _ _ _ _ toy_busy _ _
              Hu Hp1 Hp2 Hc1 Hc2) as (_ & _ & Hne).
  split_and!; [exact Hu | exact Hp1 | exact Hp2 | exact Hc1 | exact Hc2
              | exact Hne].
Defined.

Lemma different_draws_witness :
  precondition (CreateCylinder 1 2) = true
  ∧ precondition (CreateFace [[0; 0]; [1; 0]; [1; 1]]) = true
  ∧ create (CreateCylinder 1 2) None toy_scene =
      (Ok "A cylinder with name cylinder 00000000-0000-4000-8000-000000000000 has been created and registered",
       exec (create (CreateCylinder 1 2) None) toy_scene)
  ∧ create (CreateFace [[0; 0]; [1; 0]; [1; 1]]) None
      (run toy_busy (exec (create (CreateCylinder 1 2) None) toy_scene)) =
      (Ok "A face with name face 00000000-0000-4000-8000-000000000002 has been created and registered",
       exec (create (CreateFace [[0; 0]; [1; 0]; [1; 1]]) None)
         (run toy_busy (exec (create (CreateCylinder 1 2) None) toy_scene)))
  ∧ ∃ i j, i < j
      ∧ "cylinder " +:+ uuid4_str i ∈
          names (exec (create (CreateCylinder 1 2) None) toy_scene)
      ∧ "face " +:+ uuid4_str j ∈
          names (exec (create (CreateFace [[0; 0]; [1; 0]; [1; 1]]) None)
                   (run toy_busy
                      (exec (create (CreateCylinder 1 2) None) toy_scene))).
Proof.
  assert (Hp1 : precondition (CreateCylinder 1 2) = true) by reflexivity.
  assert (Hp2 : precondition (CreateFace [[0; 0]; [1; 0]; [1; 1]]) = true)
    by reflexivity.
  assert (Hc1 : create (CreateCylinder 1 2) None toy_scene =
      (Ok "A cylinder with name cylinder 00000000-0000-4000-8000-000000000000 has been created and registered",
       exec (create (CreateCylinder 1 2) None) toy_scene)) by reflexivity.
  assert (Hc2 : create (CreateFace [[0; 0]; [1; 0]; [1; 1]]) None
      (run toy_busy (exec (create (CreateCylinder 1 2) None) toy_scene)) =
      (Ok "A face with name face 00000000-0000-4000-8000-000000000002 has been created and registered",
       exec (create (CreateFace [[0; 0]; [1; 0]; [1; 1]]) None)
         (run toy_busy (exec (create (CreateCylinder 1 2) None) toy_scene))))
    by reflexivity.
  split_and!; [exact Hp1 | exact Hp2 | exact Hc1 | exact Hc2 |].
  destruct (unnamed_creations_read_different_draws _ _ _ _ _ toy_busy _ _
              Hp1 Hp2 Hc1 Hc2) as (i & j & Hlt & _ & Hn1 & _ & Hn2 & _).
  exists i, j. split_and!; [exact Hlt | exact Hn1 | exact Hn2].
Defined.

Example toy_agent_pieces :
  stream_pieces toy_agent = ["Using 'create_cube' tool ..."; "Here is your cube."].
Proof. reflexivity. Qed.

Example toy_busy_names :
  names (run toy_busy toy_scene) =
    ["v1"; "c1"; "edge 00000000-0000-4000-8000-000000000000"; "spare"].
Proof. reflexivity. Qed.

Lemma failed_creation_witness :
  create (CreateVertex None) None toy_scene =
    (Raise (TypeError "argument after * must be an iterable, not NoneType"),
     exec (create (CreateVertex None) None) toy_scene)
  ∧ session (exec (create (CreateVertex None) None) toy_scene) =
      session toy_scene
  ∧ draws (exec (create (CreateVertex None) None) toy_scene) = 1.
Proof.
  assert (Hc : create (CreateVertex None) None toy_scene =
    (Raise (TypeError "argument after * must be an iterable, not NoneType"),
     exec (create (CreateVertex None) None) toy_scene)) by reflexivity.
  destruct (failed_creation_registers_nothing _ _ _ _ _ Hc) as (Hs & _ & _).
  split_and!; [exact Hc | exact Hs | reflexivity].
Defined.

Lemma names_grow_witness :
  Forall (λ op, is_clear_session op = false) toy_busy
  ∧ names toy_scene `prefix_of` names (run toy_busy toy_scene).
Proof.
  assert (Hops : Forall (λ op, is_clear_session op = false) toy_busy)
    by (repeat constructor).
  destruct (names_grow_at_the_end toy_busy toy_scene Hops) as [Hpre _].
  split; [exact Hops | exact Hpre].
Defined.

Lemma names_stay_distinct_witness :
  NoDup (names toy_scene)
  ∧ NoDup (names (run (toy_busy ++ [OpInvoke ClearSession] ++ toy_busy)
                    toy_scene)).
Proof.
  assert (Hd : NoDup (names toy_scene)).
  { apply (first_occurrences_NoDup ["v1"; "c1"]). }
  split; [exact Hd|].
  apply (names_stay_distinct _ toy_scene Hd).
Defined.

Lemma chat_history_witness :
  wf toy_chat
  ∧ current_messages
      (run (add_messages [mkTurn "assistant" "Here it is."; mkTurn "user" "thanks"])
         toy_chat) =
      [mkTurn "user" "a cube, please"; mkTurn "assistant" "Here it is.";
       mkTurn "user" "thanks"].
Proof.
  assert (Hw : wf toy_chat) by (vm_compute; repeat constructor).
  split; [exact Hw|].
  destruct (chat_history_is_append_only []
              [mkTurn "assistant" "Here it is."; mkTurn "user" "thanks"]
              toy_chat Hw) as (_ & Happ & _).
  exact Happ.
Defined.

Lemma created_None_witness :
  precondition (CreateFace flat_points) = true
  ∧ flat_face toy_scene =
      (Ok "A face with name f1 has been created and registered",
       exec flat_face toy_scene)
  ∧ dict_lookup "f1" (items (session (exec flat_face toy_scene))) = Some VNone
  ∧ @get_object_info toy_kernel degenerate_ops "f1" (exec flat_face toy_scene) =
      (Ok "No object found with the name 'f1'.", exec flat_face toy_scene).
Proof.
  assert (Hp : precondition (CreateFace flat_points) = true) by reflexivity.
  assert (Hc : flat_face toy_scene =
      (Ok "A face with name f1 has been created and registered",
       exec flat_face toy_scene)) by reflexivity.
  assert (Hn : dict_lookup "f1" (items (session (exec flat_face toy_scene)))
               = Some VNone) by reflexivity.
  destruct (@created_None_reads_as_not_found toy_kernel degenerate_ops
              counting_uuids _ _ _ _ _ Hp Hc Hn) as (_ & _ & _ & _ & Hinfo).
  split_and!; [exact Hp | exact Hc | exact Hn | exact Hinfo].
Defined.

Lemma prompt_witness :
  wf (world toy_app)
  ∧ on_prompt "a cube" toy_agent toy_app =
      (Done tt, snd (on_prompt "a cube" toy_agent toy_app))
  ∧ current_messages (world (snd (on_prompt "a cube" toy_agent toy_app))) =
      [mkTurn "user" "a vertex, please"; mkTurn "user" "a cube";
       mkTurn "assistant" "Here is your cube."].
Proof.
  assert (Hw : wf (world toy_app)) by (vm_compute; repeat constructor).
  assert (Hrun : on_prompt "a cube" toy_agent toy_app =
      (Done tt, snd (on_prompt "a cube" toy_agent toy_app))) by reflexivity.
  split_and!; [exact Hw | exact Hrun |].
  exact (prompt_stores_the_last_piece _ _ _ _ Hw Hrun).
Defined.

Lemma crashed_prompt_witness :
  wf (world toy_app)
  ∧ on_prompt "a cube" toy_thinking_agent toy_app =
      (Crashed (KeyError "text"),
       snd (on_prompt "a cube" toy_thinking_agent toy_app))
  ∧ current_messages
      (world (snd (on_prompt "a cube" toy_thinking_agent toy_app))) =
      [mkTurn "user" "a vertex, please"; mkTurn "user" "a cube"]
  ∧ names (world (snd (on_prompt "a cube" toy_thinking_agent toy_app))) = ["c2"].
Proof.
  assert (Hw : wf (world toy_app)) by (vm_compute; repeat constructor).
  assert (Hrun : on_prompt "a cube" toy_thinking_agent toy_app =
      (Crashed (KeyError "text"),
       snd (on_prompt "a cube" toy_thinking_agent toy_app))) by reflexivity.
  destruct (crashed_prompt_keeps_the_user_turn _ _ _ _ _ Hw Hrun) as [Hc _].
  split_and!; [exact Hw | exact Hrun | exact Hc | reflexivity].
Defined.

Lemma agent_input_witness :
  wf (world toy_app)
  ∧ ∃ r,
      messages_for_agent (snd (on_prompt "a cube" toy_agent toy_app)) = Some r
      ∧ heap (world (snd (on_prompt "a cube" toy_agent toy_app))) !! r =
          Some [mkTurn "user" "a vertex, please"; mkTurn "user" "a cube"].
Proof.
  assert (Hw : wf (world toy_app)) by (vm_compute; repeat constructor).
  split; [exact Hw|].
  destruct (agent_receives_the_history_with_the_prompt "a cube" toy_agent
              toy_app Hw) as (r & Hr & Hl & _).
  exists r. split; [exact Hr | exact Hl].
Defined.
End MoreExecutions.
